(** * SocraticBot: the answer evaluator of [core.py]

    A shallow embedding of [LearningProgress] and of
    [ResponseGenerator.generate_response] with the helpers it calls, and the
    properties of the hint/progress state machine proved over it.

    Conventions of the embedding:
    - a Python [str] is the list of its Unicode code points;
    - a Python [int] is a [Z], a Python [float] a binary64 [float];
    - a call that may raise returns a [result]; code that reads or mutates the
      [progress] argument lives in the monad [M], in which a mutation made
      before an exception is raised stays made, as in Python;
    - the third-party services (embeddings, vector store, prompt formatting,
      chat model) are functions supplied by the caller. *)

From Stdlib Require Import ZArith String Ascii List DecimalString Decimal Lia.
From Stdlib Require Import PrimFloat SpecFloat FloatOps FloatAxioms.
From stdpp Require Import base list gmap numbers.

Set Warnings "-inexact-float".
Local Open Scope Z_scope.

(** ** Python values *)

(** [str]: a sequence of code points. *)
Definition str := list N.

(** An ASCII literal as a [str]. *)
Definition py (s : string) : str :=
  (fun a => N_of_ascii a) <$> list_ascii_of_string s.

(** The one-character string of a line feed. *)
Definition LF : str := [10%N].

(** [str(z)] and the [{z}] of an f-string: the decimal numeral of an int
    (the cap CPython 3.11 puts on the number of digits is not modelled). *)
Definition str_of_int (z : Z) : str := py (NilZero.string_of_int (Z.to_int z)).

(** [s.startswith(pre)]. *)
Fixpoint startswith (pre s : str) : bool :=
  match pre, s with
  | [], _ => true
  | _ :: _, [] => false
  | c :: pre', d :: s' => (c =? d)%N && startswith pre' s'
  end.

(** [sub in s] on strings: [sub] occurs in [s] as a contiguous run. *)
Fixpoint str_in (sub s : str) : bool :=
  startswith sub s ||
  match s with
  | [] => false
  | _ :: s' => str_in sub s'
  end.

(** [sep.join(parts)]. *)
Fixpoint join (sep : str) (parts : list str) : str :=
  match parts with
  | [] => []
  | [s] => s
  | s :: rest => s ++ sep ++ join sep rest
  end.

(** [c.isspace()] for one code point: the whitespace table of CPython's
    [_PyUnicode_IsWhitespace]. *)
Definition isspace (c : N) : bool :=
  ((9 <=? c) && (c <=? 13) || (28 <=? c) && (c <=? 32)
   || (c =? 133) || (c =? 160) || (c =? 5760)
   || (8192 <=? c) && (c <=? 8202)
   || (c =? 8232) || (c =? 8233) || (c =? 8239) || (c =? 8287)
   || (c =? 12288))%N.

(** [s.lstrip()]. *)
Fixpoint lstrip (s : str) : str :=
  match s with
  | [] => []
  | c :: s' => if isspace c then lstrip s' else s
  end.

(** [s.rstrip()]. *)
Definition rstrip (s : str) : str := rev (lstrip (rev s)).

(** [s.strip()]. *)
Definition strip (s : str) : str := rstrip (lstrip s).

(** ** Exceptions and the progress monad *)

(** The outcome of a call that may raise. The exception's value is only
    logged by the code, so it is not kept. *)
Inductive result (A : Type) : Type :=
| Ok (a : A)
| Raise.
Arguments Ok {A} a.
Arguments Raise {A}.

(** ** LearningProgress *)

(** The dataclass, as [generate_response] sees an instance: [hints_given] is
    the contents of the list object the instance refers to. *)
Record LearningProgress : Type := mkLearningProgress {
  completed : bool;
  attempts : Z;
  hints_given : list str
}.

(** Sequencing of calls that may raise. *)
Definition and_then {A B} (r : result A) (k : A -> result B) : result B :=
  match r with
  | Ok a => k a
  | Raise => Raise
  end.

(** A computation over the [progress] argument: it returns or raises, and
    leaves the progress record as it stands at that point. *)
Definition M (A : Type) : Type := LearningProgress -> result A * LearningProgress.

Definition ret {A} (a : A) : M A := fun p => (Ok a, p).

Definition bind {A B} (m : M A) (k : A -> M B) : M B :=
  fun p => match m p with
           | (Ok a, p') => k a p'
           | (Raise, p') => (Raise, p')
           end.

(** A call to a service: it does not touch the progress record. *)
Definition call {A} (r : result A) : M A := fun p => (r, p).

(** Reading the record. *)
Definition get : M LearningProgress := fun p => (Ok p, p).

(** [try: body  except Exception: handler]. *)
Definition try_except {A} (body handler : M A) : M A :=
  fun p => match body p with
           | (Ok a, p') => (Ok a, p')
           | (Raise, p') => handler p'
           end.

Notation "'do' x <- m ;; k" := (bind m (fun x => k))
  (at level 10, x name, m at level 99, k at level 200, only parsing).
Notation "'run' m ;; k" := (bind m (fun _ => k))
  (at level 10, m at level 99, k at level 200, only parsing).

(** [progress.completed = True]. *)
Definition set_completed : M unit :=
  fun p => (Ok tt, mkLearningProgress true (attempts p) (hints_given p)).

(** [progress.hints_given.append(hint)]. *)
Definition append_hint (hint : str) : M unit :=
  fun p => (Ok tt, mkLearningProgress (completed p) (attempts p) (hints_given p ++ [hint])).

(** [progress.attempts += 1]. *)
Definition incr_attempts : M unit :=
  fun p => (Ok tt, mkLearningProgress (completed p) (attempts p + 1) (hints_given p)).

(** ** The services *)

(** [OllamaEmbeddings]: [embed_query]. *)
Definition OllamaEmbeddings := str -> result (list float).

(** [ChatOllama]: the text of [generate([messages]).generations[0][0]] for the
    formatted prompt, during one call of [generate_response]. *)
Definition ChatOllama := str -> result str.

(** [Chroma]: the [page_content] of the documents its MMR retriever
    ([k = 5], [fetch_k = 8]) returns for a query. *)
Definition Chroma := str -> result (list str).

(** [ResponseGenerator]: the attributes [__init__] sets. *)
Record ResponseGenerator : Type := mkResponseGenerator {
  llm : ChatOllama;
  similarity_threshold : float;
  embeddings : OllamaEmbeddings
}.

(** [ResponseGenerator.__init__], given the two clients it builds. *)
Definition ResponseGenerator_init (chat : ChatOllama) (emb : OllamaEmbeddings) : ResponseGenerator :=
  {| llm := chat; similarity_threshold := 0.85%float; embeddings := emb |}.

(** ** The literals of [core.py] *)

(** The three prompt templates of [_get_dynamic_prompt_template], in the
    order of its branches. *)
Definition TEMPLATE_FIRST_ATTEMPT : str := py "
            You are an encouraging educational AI assistant. The user is just starting to work on this problem. 

            Context: {context}

            Question: {question}
            User's First Attempt: {user_answer}

            Provide gentle guidance and a starting point for thinking about the problem. 
            Focus on understanding the question and identifying key concepts.
            ".

Definition TEMPLATE_MAKING_PROGRESS : str := py "
            You are an educational AI assistant helping a student who is making progress.
            

            Context: {context}
            Previous Attempts: {attempts}

            Question: {question}
            Latest Answer: {user_answer}

            Provide more specific hints based on their answer. Point out what they've understood correctly
            and gently guide them toward areas they might have missed.  
            ".

Definition TEMPLATE_STRUGGLING : str := py "
            You are an educational AI assistant helping a student who might be struggling.

            Context: {context}
            Attempts Made: {attempts}

            Question: {question}
            Latest Answer: {user_answer}

            Break down the problem into smaller steps. Provide more structured guidance
            while still encouraging independent thinking. Consider suggesting different
            approaches or ways of thinking about the problem. 
            ".

(** The message [_generate_llm_response] returns when the chat model fails. *)
Definition APOLOGY : str :=
  py "I encountered an issue generating feedback. Please try again or rephrase your answer.".

(** The message [generate_response] returns from its exception handler. *)
Definition FALLBACK : str :=
  py "I encountered an issue processing your answer. Please try again.".

(** The party popper, U+1F389, that opens the congratulation. *)
Definition PARTY_POPPER : N := 127881%N.

Definition FIRST_TRY : str :=
  py "Excellent work! You found the solution on your first try!".

Definition KEEP_PERSEVERING : str :=
  py "Keep persevering! Here's some guidance:".

(** ** ResponseGenerator *)

(** [_handle_correct_answer]. *)
Definition _handle_correct_answer : M str :=
  do progress <- get ;;
  if negb (completed progress) then
    (run set_completed ;;
     do progress <- get ;;
     let attempts_feedback :=
       if attempts progress =? 0 then FIRST_TRY
       else py "Well done! You persevered and found the correct answer after "
            ++ str_of_int (attempts progress + 1) ++ py " attempts." in
     ret ([PARTY_POPPER] ++ py " Congratulations! " ++ attempts_feedback
          ++ py " Your understanding has grown through this process."))
  else ret (py ".").

(** [_get_dynamic_prompt_template]. *)
Definition _get_dynamic_prompt_template (progress : LearningProgress) : str :=
  if attempts progress =? 0 then TEMPLATE_FIRST_ATTEMPT
  else if attempts progress <? 3 then TEMPLATE_MAKING_PROGRESS
  else TEMPLATE_STRUGGLING.

(** The dict literal of [_get_encouragement]. *)
Definition encouragements : gmap Z str :=
  <[0 := py "Let's start exploring this together!"]>
  (<[1 := py "You're making progress! Keep thinking about it."]>
  (<[2 := py "You're getting closer! Consider these points:"]>
  (<[3 := py "Don't give up! Here's a different way to think about it:"]>
  (<[4 := py "You're putting in great effort! Let's break this down further:"]>
   empty)))).

(** [_get_encouragement]: [encouragements.get(attempts, ...)]. *)
Definition _get_encouragement (attempts : Z) : str :=
  default KEEP_PERSEVERING (encouragements !! attempts).

(** [_format_response]. *)
Definition _format_response (hint : str) (progress : LearningProgress) : str :=
  let encouragement := _get_encouragement (attempts progress) in
  encouragement ++ LF ++ LF ++ hint.

(** [_get_enhanced_context]. *)
Definition _get_enhanced_context (question : str) (vector_db : Chroma) : result str :=
  and_then (vector_db question) (fun relevant_docs =>
  Ok (join LF (take 3 relevant_docs))).

(** ** Constructing a LearningProgress

    The dataclass holds a reference to a list object; whether two instances
    share that object is a matter of the store of list objects, modelled
    here. [generate_response] works on one instance, whose list nothing else
    refers to, through the view [LearningProgress] above. *)

(** The identity of a list object, and the list objects allocated so far. *)
Definition ref := nat.
Definition store := list (list str).

(** The fields of an instance; [None] in [obj_hints_given] is Python's
    [None]. *)
Record instance : Type := mkInstance {
  obj_completed : bool;
  obj_attempts : Z;
  obj_hints_given : option ref
}.

(** The evaluation of the display [[]]: a new, empty list object. *)
Definition new_list (st : store) : ref * store := (length st, st ++ [[]]).

(** [LearningProgress.__post_init__]. *)
Definition __post_init__ (self : instance) (st : store) : instance * store :=
  match obj_hints_given self with
  | None =>
      let (r, st') := new_list st in
      (mkInstance (obj_completed self) (obj_attempts self) (Some r), st')
  | Some _ => (self, st)
  end.

(** [LearningProgress(completed=..., attempts=..., hints_given=...)]: the
    generated [__init__] stores the arguments, an omitted one taking its
    default ([False], [0], [None]), and calls [__post_init__]. *)
Definition LearningProgress_new (completed : option bool) (attempts : option Z)
    (hints_given : option ref) (st : store) : instance * store :=
  __post_init__
    (mkInstance (default false completed) (default 0 attempts) hints_given) st.

(** [LearningProgress()]. *)
Definition LearningProgress_default (st : store) : instance * store :=
  LearningProgress_new None None None st.

(** What an instance holds, its list read from the store. *)
Definition view (st : store) (self : instance) : option LearningProgress :=
  match obj_hints_given self with
  | None => None
  | Some r =>
      match st !! r with
      | None => None
      | Some l => Some (mkLearningProgress (obj_completed self) (obj_attempts self) l)
      end
  end.

(** [self.hints_given.append(hint)] on the list object of an instance. *)
Definition append_to (self : instance) (hint : str) (st : store) : store :=
  match obj_hints_given self with
  | None => st
  | Some r => alter (fun l => l ++ [hint]) r st
  end.

(** The arguments of one call of [generate_response], apart from the
    progress. *)
Record submission : Type := mkSubmission {
  sub_self : ResponseGenerator;
  sub_question : str;
  sub_vector_db : Chroma;
  sub_correct_answer : str;
  sub_user_answer : str
}.

(** ** State and exceptions, in general

    The monad [M] above is the one of the [progress] argument. The rest of
    the code works on other state (a [DocumentProcessor] and the file system,
    the session state of the student page), in the same style. *)

Definition ST (S A : Type) : Type := S -> result A * S.

Definition st_ret {S A} (a : A) : ST S A := fun st => (Ok a, st).

Definition st_bind {S A B} (m : ST S A) (k : A -> ST S B) : ST S B :=
  fun st => match m st with
            | (Ok a, st') => k a st'
            | (Raise, st') => (Raise, st')
            end.

(** A call to a service: it does not touch the state. *)
Definition st_call {S A} (r : result A) : ST S A := fun st => (r, st).

Definition st_get {S} : ST S S := fun st => (Ok st, st).

Definition st_modify {S} (f : S -> S) : ST S unit := fun st => (Ok tt, f st).

(** [try: body  except Exception: handler]. *)
Definition st_try_except {S A} (body handler : ST S A) : ST S A :=
  fun st => match body st with
            | (Ok a, st') => (Ok a, st')
            | (Raise, st') => handler st'
            end.

(** [try: body  finally: cleanup], for a [cleanup] that returns nothing: it
    runs whether [body] returns or raises, and the outcome of [body] stands
    unless [cleanup] raises itself. *)
Definition st_try_finally {S A} (body : ST S A) (cleanup : ST S unit) : ST S A :=
  fun st => match body st with
            | (r, st') =>
                match cleanup st' with
                | (Ok _, st'') => (r, st'')
                | (Raise, st'') => (Raise, st'')
                end
            end.

Notation "'exec' x <- m ;; k" := (st_bind m (fun x => k))
  (at level 10, x name, m at level 99, k at level 200, only parsing).
Notation "'exec_' m ;; k" := (st_bind m (fun _ => k))
  (at level 10, m at level 99, k at level 200, only parsing).

(** ** DocumentProcessor *)

(** The attributes [__init__] sets, the logger apart. *)
Record DocumentProcessor : Type := mkDocumentProcessor {
  temp_dir : option str;
  dp_embeddings : OllamaEmbeddings
}.

(** [DocumentProcessor.__init__], given the embeddings client it builds. *)
Definition DocumentProcessor_init (emb : OllamaEmbeddings) : DocumentProcessor :=
  {| temp_dir := None; dp_embeddings := emb |}.

(** What a call does to the file system, in the order it does it. *)
Inductive fs_event : Type :=
| Mkdtemp (dir : str)
| OpenWb (path : str)
| Write (path : str) (data : list N)
| Rmtree (dir : str).

(** The system and library calls of [create_vector_db], as they answer
    during one call. *)
Record platform : Type := mkPlatform {
  (** [tempfile.mkdtemp()] *)
  mkdtemp : result str;
  (** [os.path.join] *)
  path_join : str -> str -> str;
  (** [open(path, "wb")] *)
  open_wb : str -> result unit;
  (** [f.write(data)], and the closing of [f] *)
  file_write : str -> list N -> result unit;
  (** [PyPDFLoader(path).load()]: the page contents *)
  pdf_load : str -> result (list str);
  (** [RecursiveCharacterTextSplitter(chunk_size=5000, chunk_overlap=200,
      ...).split_documents] *)
  split_documents : list str -> result (list str);
  (** [Chroma.from_documents(documents=..., embedding=..., ...)] *)
  chroma_from_documents : list str -> OllamaEmbeddings -> result Chroma
}.

(** The state of a call: [self], and the file-system events so far. *)
Definition dp_state : Type := DocumentProcessor * list fs_event.

Definition emit (e : fs_event) : ST dp_state unit :=
  st_modify (fun st => (fst st, snd st ++ [e])).

(** [self.temp_dir = d]. *)
Definition set_temp_dir (d : str) : ST dp_state unit :=
  st_modify (fun st => (mkDocumentProcessor (Some d) (dp_embeddings (fst st)), snd st)).

(** The [finally] clause: [if self.temp_dir: shutil.rmtree(self.temp_dir,
    ignore_errors=True)]. [None] and the empty string are false. *)
Definition remove_temp_dir : ST dp_state unit :=
  exec st <- st_get ;;
  match temp_dir (fst st) with
  | Some (c :: d) => emit (Rmtree (c :: d))
  | _ => st_ret tt
  end.

(** [create_vector_db]. [file_upload] is what [file_upload.read()] yields.
    The [except] clause logs and raises the exception again, so it leaves the
    outcome of the [try] block as it is. *)
Definition create_vector_db (os : platform) (file_upload : result (list N))
    : ST dp_state Chroma :=
  st_try_finally
    (exec d <- st_call (mkdtemp os) ;;
     exec_ emit (Mkdtemp d) ;;
     exec_ set_temp_dir d ;;
     exec st <- st_get ;;
     let self := fst st in
     let path :=
       path_join os (match temp_dir self with Some t => t | None => [] end)
         (py "temp.pdf") in
     exec_ st_call (open_wb os path) ;;
     exec_ emit (OpenWb path) ;;
     exec data <- st_call file_upload ;;
     exec_ st_call (file_write os path data) ;;
     exec_ emit (Write path data) ;;
     exec documents <- st_call (pdf_load os path) ;;
     exec chunks <- st_call (split_documents os documents) ;;
     exec vector_db <- st_call (chroma_from_documents os chunks (dp_embeddings self)) ;;
     st_ret vector_db)
    remove_temp_dir.

(** ** Sample services, for the concrete runs below *)

Definition sample_embeddings : OllamaEmbeddings := fun _ => Ok [1%float].

Definition failing_embeddings : OllamaEmbeddings := fun _ => Raise.

(** A similarity oracle that answers [v] whatever the embeddings. *)
Definition sample_cos_sim (v : float) : list float -> list float -> result float :=
  fun _ _ => Ok v.

(** A prompt formatter that keeps the template and appends the arguments. *)
Definition sample_format_prompt : str -> str -> str -> str -> Z -> str -> result str :=
  fun template context question user_answer attempts previous_hints =>
    Ok (template ++ context ++ question ++ user_answer
        ++ str_of_int attempts ++ previous_hints).

(** A chat model that answers [text], and one that is down. *)
Definition sample_chat (text : str) : ChatOllama := fun _ => Ok text.

Definition failing_chat : ChatOllama := fun _ => Raise.

Definition sample_vector_db : Chroma :=
  fun _ => Ok [py "passage one"; py "passage two"; py "passage three"; py "passage four"].

(** A platform on which every step succeeds: the store built from the
    chunks answers every query with them. *)
Definition sample_platform : platform :=
  {| mkdtemp := Ok (py "/tmp/tmpk3v9");
     path_join := fun a b => a ++ py "/" ++ b;
     open_wb := fun _ => Ok tt;
     file_write := fun _ _ => Ok tt;
     pdf_load := fun _ => Ok [py "page one"; py "page two"];
     split_documents := fun documents => Ok documents;
     chroma_from_documents := fun chunks _ => Ok (fun _ => Ok chunks) |}.

(** A platform on which no temporary directory can be made. *)
Definition full_platform : platform :=
  {| mkdtemp := Raise;
     path_join := fun a b => a ++ py "/" ++ b;
     open_wb := fun _ => Ok tt;
     file_write := fun _ _ => Ok tt;
     pdf_load := fun _ => Ok [];
     split_documents := fun documents => Ok documents;
     chroma_from_documents := fun chunks _ => Ok (fun _ => Ok chunks) |}.

(** The record [LearningProgress()] holds. *)
Definition fresh_progress : LearningProgress := mkLearningProgress false 0 [].

(** A generator whose chat model answers [text], and one whose chat model
    is down. *)
Definition sample_generator (text : str) : ResponseGenerator :=
  ResponseGenerator_init (sample_chat text) sample_embeddings.

Definition failing_generator : ResponseGenerator :=
  ResponseGenerator_init failing_chat sample_embeddings.

Definition sample_question : str := py "What is a limit?".

Definition sample_correct_answer : str := py "The value a function approaches.".

Definition sample_user_answer : str := py "I do not know.".

(** A submission to which the chat model answers [text]. *)
Definition sample_submission (text : str) : submission :=
  mkSubmission (sample_generator text) sample_question sample_vector_db
    sample_correct_answer sample_user_answer.

Section Evaluator.

(** [util.cos_sim(a, b).item()] of sentence_transformers. *)
Variable cos_sim : list float -> list float -> result float.

(** [ChatPromptTemplate.from_template(template).format_prompt(context=...,
    question=..., user_answer=..., attempts=..., previous_hints=...)
    .to_messages()] of langchain, as the text handed to the chat model. *)
Variable format_prompt : str -> str -> str -> str -> Z -> str -> result str.

(** [_calculate_similarity]. *)
Definition _calculate_similarity (self : ResponseGenerator)
    (correct_answer user_answer : str) : result float :=
  and_then (embeddings self correct_answer) (fun correct_embedding =>
  and_then (embeddings self user_answer) (fun user_embedding =>
  cos_sim correct_embedding user_embedding)).

(** [_generate_llm_response]. *)
Definition _generate_llm_response (self : ResponseGenerator)
    (template context question user_answer correct_answer : str) : M str :=
  do progress <- get ;;
  do messages <- call (format_prompt template context question user_answer
                         (attempts progress)
                         (join (py ", ") (hints_given progress))) ;;
  try_except
    (do hint <- call (and_then (llm self messages) (fun text => Ok (strip text))) ;;
     do progress <- get ;;
     run (if bool_decide (elem_of hint (hints_given progress)) then ret tt
          else append_hint hint) ;;
     do progress <- get ;;
     ret (_format_response hint progress))
    (ret APOLOGY).

(** The [try] block of [generate_response]. *)
Definition generate_response_body (self : ResponseGenerator) (question : str)
    (vector_db : Chroma) (correct_answer user_answer : str) : M str :=
  do similarity <- call (_calculate_similarity self correct_answer user_answer) ;;
  if (similarity_threshold self <? similarity)%float then
    _handle_correct_answer
  else
    do context <- call (_get_enhanced_context question vector_db) ;;
    do progress <- get ;;
    let template := _get_dynamic_prompt_template progress in
    do response <- _generate_llm_response self template context question
                     user_answer correct_answer ;;
    run incr_attempts ;;
    ret response.

(** [generate_response]. *)
Definition generate_response (self : ResponseGenerator) (question : str)
    (vector_db : Chroma) (correct_answer user_answer : str) : M str :=
  try_except
    (generate_response_body self question vector_db correct_answer user_answer)
    (ret FALLBACK).


(** ** A learning session

    [student_app.py] keeps one [LearningProgress] per session and calls
    [generate_response] on it for every answer the student submits. *)

Definition submit (s : submission) : M str :=
  generate_response (sub_self s) (sub_question s) (sub_vector_db s)
    (sub_correct_answer s) (sub_user_answer s).

(** The responses to a sequence of submissions on the same progress. *)
Fixpoint session (subs : list submission) : M (list str) :=
  match subs with
  | [] => ret []
  | s :: rest =>
      do response <- submit s ;;
      do responses <- session rest ;;
      ret (response :: responses)
  end.

(** The submission [s], made when the progress is [p], is judged incorrect
    and the chat model produces the hint [hint] for it. *)
Definition yields_hint (s : submission) (p : LearningProgress) (hint : str) : Prop :=
  exists similarity context messages text,
    _calculate_similarity (sub_self s) (sub_correct_answer s) (sub_user_answer s)
      = Ok similarity /\
    (similarity_threshold (sub_self s) <? similarity)%float = false /\
    _get_enhanced_context (sub_question s) (sub_vector_db s) = Ok context /\
    format_prompt (_get_dynamic_prompt_template p) context (sub_question s)
      (sub_user_answer s) (attempts p) (join (py ", ") (hints_given p))
      = Ok messages /\
    llm (sub_self s) messages = Ok text /\
    strip text = hint.

(** Every submission of [subs], made in turn from the progress [p], yields
    the corresponding hint of [hints]. *)
Fixpoint yield_hints (subs : list submission) (hints : list str)
    (p : LearningProgress) : Prop :=
  match subs, hints with
  | [], [] => True
  | s :: subs', hint :: hints' =>
      yields_hint s p hint /\ yield_hints subs' hints' (snd (submit s p))
  | _, _ => False
  end.

(** The similarity of the submission [s] exceeds the threshold. *)
Definition judged_correct (s : submission) : Prop :=
  exists similarity,
    _calculate_similarity (sub_self s) (sub_correct_answer s) (sub_user_answer s)
      = Ok similarity /\
    (similarity_threshold (sub_self s) <? similarity)%float = true.

(** The submission [s], made when the progress is [p], is judged incorrect
    and gets as far as the chat model, which is handed [messages]. *)
Definition reaches_chat_model (s : submission) (p : LearningProgress)
    (messages : str) : Prop :=
  exists similarity context,
    _calculate_similarity (sub_self s) (sub_correct_answer s) (sub_user_answer s)
      = Ok similarity /\
    (similarity_threshold (sub_self s) <? similarity)%float = false /\
    _get_enhanced_context (sub_question s) (sub_vector_db s) = Ok context /\
    format_prompt (_get_dynamic_prompt_template p) context (sub_question s)
      (sub_user_answer s) (attempts p) (join (py ", ") (hints_given p))
      = Ok messages.

(** The response opens as the congratulation of [_handle_correct_answer]
    does. *)
Definition is_congratulation (response : str) : bool :=
  startswith ([PARTY_POPPER] ++ py " Congratulations! ") response.

(** [student_app.py], line 114: the test on the response that releases the
    balloons. *)
Definition shows_balloons (response : str) : bool :=
  str_in (py "Congratulations") response.

(** ** The student page

    One run of the script [setup_student_ui]: what it does to
    [st.session_state] and which messages to the student it raises. The
    widgets that only display are left out. *)

(** An exercise, with the four keys [teacher_app.py] writes. *)
Record exercise : Type := mkExercise {
  ex_id : str;
  ex_title : str;
  ex_question : str;
  ex_correct_answer : str
}.

(** An entry of the chat history. *)
Record message : Type := mkMessage {
  role : str;
  content : str
}.

(** [st.session_state]: a key that is not in it is [None]. *)
Record session_state : Type := mkSessionState {
  ss_messages : option (list message);
  ss_progress : option LearningProgress;
  ss_vector_db : option Chroma
}.

(** What the page shows besides the conversation. *)
Inductive ui_event : Type :=
| NoExercisesDirectory
| NoExercises
| MaterialsLoaded
| MaterialsError
| ResponseError
| Balloons
| Rerun.

(** What the run reads from outside the session state. *)
Record page_inputs : Type := mkPageInputs {
  (** the exercises read from the directory: [None] when there is no
      directory, [Raise] when a file cannot be read or parsed *)
  in_exercises : option (result (list exercise));
  (** the index of the option [st.selectbox] returns *)
  in_selected : nat;
  (** [open(pdf_path, "rb")], and what reading the file yields *)
  in_pdf_open : str -> result (result (list N));
  (** the embeddings client [DocumentProcessor()] builds *)
  in_embeddings : result OllamaEmbeddings;
  (** the platform during [create_vector_db] *)
  in_platform : platform;
  (** what [st.chat_input] returns *)
  in_user_input : option str;
  (** [ResponseGenerator()] *)
  in_generator : result ResponseGenerator
}.

Definition page_state : Type := session_state * list ui_event.

Definition show (e : ui_event) : ST page_state unit :=
  st_modify (fun st => (fst st, snd st ++ [e])).

(** Lines 21 to 24. *)
Definition init_session_state : ST page_state unit :=
  exec_ st_modify (fun st =>
          (mkSessionState
             (Some (match ss_messages (fst st) with Some m => m | None => [] end))
             (ss_progress (fst st)) (ss_vector_db (fst st)), snd st)) ;;
  st_modify (fun st =>
    (mkSessionState (ss_messages (fst st))
       (Some (match ss_progress (fst st) with
              | Some p => p
              | None => fresh_progress
              end))
       (ss_vector_db (fst st)), snd st)).

(** [st.session_state.messages.append(m)]. *)
Definition append_message (m : message) : ST page_state unit :=
  exec st <- st_get ;;
  match ss_messages (fst st) with
  | None => st_call Raise
  | Some messages =>
      st_modify (fun st =>
        (mkSessionState (Some (messages ++ [m])) (ss_progress (fst st))
           (ss_vector_db (fst st)), snd st))
  end.

(** Lines 59 to 69: the vector store is made when the session has none.
    The result says whether the run goes on. *)
Definition load_materials (inp : page_inputs) (selected_exercise : exercise)
    : ST page_state bool :=
  exec st <- st_get ;;
  match ss_vector_db (fst st) with
  | Some _ => st_ret true
  | None =>
      let pdf_path := ex_id selected_exercise ++ py ".pdf" in
      st_try_except
        (exec f <- st_call (in_pdf_open inp pdf_path) ;;
         exec emb <- st_call (in_embeddings inp) ;;
         let doc_processor := DocumentProcessor_init emb in
         exec vector_db <-
           st_call (fst (create_vector_db (in_platform inp) f (doc_processor, []))) ;;
         exec_ st_modify (fun st =>
                 (mkSessionState (ss_messages (fst st)) (ss_progress (fst st))
                    (Some vector_db), snd st)) ;;
         exec_ show MaterialsLoaded ;;
         st_ret true)
        (exec_ show MaterialsError ;;
         st_ret false)
  end.

(** The call of [generate_response] on [st.session_state.progress], which it
    updates in place. *)
Definition respond (response_generator : ResponseGenerator)
    (selected_exercise : exercise) (user_input : str) : ST page_state str :=
  exec st <- st_get ;;
  match ss_vector_db (fst st), ss_progress (fst st) with
  | Some vector_db, Some progress =>
      let outcome :=
        generate_response response_generator (ex_question selected_exercise)
          vector_db (ex_correct_answer selected_exercise) user_input progress in
      exec_ st_modify (fun st =>
              (mkSessionState (ss_messages (fst st)) (Some (snd outcome))
                 (ss_vector_db (fst st)), snd st)) ;;
      st_call (fst outcome)
  | _, _ => st_call Raise
  end.

(** Lines 88 to 121: the answer of the student, if there is one. *)
Definition handle_input (inp : page_inputs) (selected_exercise : exercise)
    : ST page_state unit :=
  match in_user_input inp with
  | Some (c :: rest) =>
      let user_input := c :: rest in
      exec_ append_message (mkMessage (py "user") user_input) ;;
      exec_ st_try_except
              (exec response_generator <- st_call (in_generator inp) ;;
               exec response <- respond response_generator selected_exercise
                                  user_input ;;
               exec_ append_message (mkMessage (py "assistant") response) ;;
               if shows_balloons response then show Balloons else st_ret tt)
              (show ResponseError) ;;
      show Rerun
  | _ => st_ret tt
  end.

(** [setup_student_ui]. *)
Definition setup_student_ui (inp : page_inputs) : ST page_state unit :=
  exec_ init_session_state ;;
  match in_exercises inp with
  | None => show NoExercisesDirectory
  | Some read =>
      exec exercises <- st_call read ;;
      match exercises with
      | [] => show NoExercises
      | _ :: _ =>
          match exercises !! in_selected inp with
          | None => st_ret tt
          | Some selected_exercise =>
              exec ready <- load_materials inp selected_exercise ;;
              if ready then handle_input inp selected_exercise
              else st_ret tt
          end
      end
  end.

(** Two exercises and the inputs of a run on them, for the concrete runs
    below. *)
Definition sample_exercise : exercise :=
  mkExercise (py "20240101_120000") (py "Limits") sample_question
    sample_correct_answer.

Definition other_exercise : exercise :=
  mkExercise (py "20240102_090000") (py "Series") (py "What is a series?")
    (py "The sum of the terms of a sequence.").

Definition sample_inputs (selected : nat) (pdf_open : str -> result (result (list N)))
    (user_input : option str) (generator : result ResponseGenerator) : page_inputs :=
  mkPageInputs (Some (Ok [sample_exercise; other_exercise])) selected pdf_open
    (Ok sample_embeddings) sample_platform user_input generator.

(** * Properties *)

(** ** Strings *)

Lemma startswith_app (pre s : str) : startswith pre (pre ++ s) = true.
Proof.
  induction pre as [|c pre IH]; simpl; [reflexivity|].
  rewrite N.eqb_refl. exact IH.
Qed.

Lemma startswith_str_in (sub s : str) :
  startswith sub s = true -> str_in sub s = true.
Proof.
  intros H. destruct s; simpl; rewrite H; reflexivity.
Qed.

Lemma str_in_app (sub a b : str) : str_in sub (a ++ sub ++ b) = true.
Proof.
  induction a as [|c a IH]; simpl.
  - apply startswith_str_in, startswith_app.
  - rewrite IH. apply orb_true_r.
Qed.

Lemma str_in_suffix (sub a : str) : str_in sub (a ++ sub) = true.
Proof.
  rewrite <- (app_nil_r sub) at 2. apply str_in_app.
Qed.

(** ** Floats *)

Lemma SFcompare_antisym (x y : spec_float) :
  SFcompare y x = option_map CompOpp (SFcompare x y).
Proof.
  destruct x as [sx|sx| |sx mx ex], y as [sy|sy| |sy my ey]; simpl;
    try reflexivity;
    try (destruct sx, sy; reflexivity);
    try (destruct sx; reflexivity); try (destruct sy; reflexivity).
  destruct sx, sy; try reflexivity;
    rewrite (Z.compare_antisym ex ey); destruct (ex ?= ey)%Z; simpl;
    try reflexivity;
    pose proof (Pos.compare_cont_antisym mx my Eq) as H; simpl in H;
    rewrite <- H; destruct (Pos.compare_cont Eq mx my); reflexivity.
Qed.

(** A similarity at or below the threshold fails the test
    [similarity > self.similarity_threshold]. The test also fails on a NaN,
    which is neither above nor at or below; the statements below take the
    failed test as their hypothesis and so cover both. *)
Lemma at_or_below_is_not_above (similarity threshold : float) :
  (similarity <=? threshold)%float = true ->
  (threshold <? similarity)%float = false.
Proof.
  rewrite leb_spec, ltb_spec. unfold SFleb, SFltb.
  rewrite (SFcompare_antisym (Prim2SF similarity) (Prim2SF threshold)).
  destruct (SFcompare (Prim2SF similarity) (Prim2SF threshold)) as [[]|];
    simpl; congruence.
Qed.

(** ** The monad *)

Ltac step_monad :=
  cbv beta iota zeta delta
    [generate_response generate_response_body _generate_llm_response
     _handle_correct_answer try_except bind call get ret
     set_completed append_hint incr_attempts and_then].

(** ** The paths of [generate_response] *)

(** A correct answer: the call is [_handle_correct_answer]. *)
Lemma correct_path self question vector_db correct_answer user_answer p similarity :
  _calculate_similarity self correct_answer user_answer = Ok similarity ->
  (similarity_threshold self <? similarity)%float = true ->
  generate_response self question vector_db correct_answer user_answer p
  = _handle_correct_answer p.
Proof.
  intros Hs Hgt. step_monad. rewrite Hs, Hgt.
  destruct (completed p); reflexivity.
Qed.

(** An incorrect answer for which the chat model produces [text]. *)
Lemma hint_path self question vector_db correct_answer user_answer p
    similarity context messages text :
  _calculate_similarity self correct_answer user_answer = Ok similarity ->
  (similarity_threshold self <? similarity)%float = false ->
  _get_enhanced_context question vector_db = Ok context ->
  format_prompt (_get_dynamic_prompt_template p) context question user_answer
    (attempts p) (join (py ", ") (hints_given p)) = Ok messages ->
  llm self messages = Ok text ->
  generate_response self question vector_db correct_answer user_answer p
  = (Ok (_get_encouragement (attempts p) ++ LF ++ LF ++ strip text),
     mkLearningProgress (completed p) (attempts p + 1)
       (if bool_decide (elem_of (strip text) (hints_given p))
        then hints_given p else hints_given p ++ [strip text])).
Proof.
  intros Hs Hle Hc Hf Hl. step_monad.
  rewrite Hs, Hle, Hc, Hf, Hl.
  destruct p as [c a h]; simpl.
  destruct (bool_decide (elem_of (strip text) h)); reflexivity.
Qed.

(** An incorrect answer for which the chat model raises. *)
Lemma llm_failure_path self question vector_db correct_answer user_answer p
    similarity context messages :
  _calculate_similarity self correct_answer user_answer = Ok similarity ->
  (similarity_threshold self <? similarity)%float = false ->
  _get_enhanced_context question vector_db = Ok context ->
  format_prompt (_get_dynamic_prompt_template p) context question user_answer
    (attempts p) (join (py ", ") (hints_given p)) = Ok messages ->
  llm self messages = Raise ->
  generate_response self question vector_db correct_answer user_answer p
  = (Ok APOLOGY,
     mkLearningProgress (completed p) (attempts p + 1) (hints_given p)).
Proof.
  intros Hs Hle Hc Hf Hl. step_monad.
  rewrite Hs, Hle, Hc, Hf, Hl. destruct p; reflexivity.
Qed.

(** Whatever the services do, a call returns, and leaves the progress in one
    of four shapes. *)
Lemma generate_response_cases self question vector_db correct_answer user_answer p :
  exists response p',
    generate_response self question vector_db correct_answer user_answer p
    = (Ok response, p') /\
    (p' = p
     \/ p' = mkLearningProgress true (attempts p) (hints_given p)
     \/ p' = mkLearningProgress (completed p) (attempts p + 1) (hints_given p)
     \/ exists hint,
          p' = mkLearningProgress (completed p) (attempts p + 1)
                 (hints_given p ++ [hint])).
Proof.
  destruct p as [c a h]. step_monad. simpl.
  destruct (_calculate_similarity self correct_answer user_answer) as [s|];
    [|eauto 6].
  destruct (similarity_threshold self <? s)%float.
  { destruct c; simpl; eauto 6. }
  destruct (_get_enhanced_context question vector_db) as [ctx|]; [|eauto 6].
  destruct (format_prompt _ _ _ _ _ _) as [messages|]; [|eauto 6].
  destruct (llm self messages) as [text|]; simpl; [|eauto 8].
  destruct (bool_decide _); simpl; eauto 10.
Qed.

(** [_handle_correct_answer] on a progress that is not completed yet. *)
Lemma handle_first_correct p :
  completed p = false ->
  _handle_correct_answer p
  = (Ok ([PARTY_POPPER] ++ py " Congratulations! "
         ++ (if attempts p =? 0 then FIRST_TRY
             else py "Well done! You persevered and found the correct answer after "
                  ++ str_of_int (attempts p + 1) ++ py " attempts.")
         ++ py " Your understanding has grown through this process."),
     mkLearningProgress true (attempts p) (hints_given p)).
Proof.
  intros Hc. step_monad. rewrite Hc. reflexivity.
Qed.

(** [_handle_correct_answer] on a completed progress. *)
Lemma handle_repeated_correct p :
  completed p = true -> _handle_correct_answer p = (Ok (py "."), p).
Proof.
  intros Hc. step_monad. rewrite Hc. reflexivity.
Qed.

(** The exception handler of [generate_response] is reached only before
    anything was written to the progress. *)
Lemma body_raises_unchanged self question vector_db correct_answer user_answer p p1 :
  generate_response_body self question vector_db correct_answer user_answer p
  = (Raise, p1) ->
  p1 = p.
Proof.
  step_monad.
  destruct (_calculate_similarity self correct_answer user_answer) as [s|];
    [|congruence].
  destruct (similarity_threshold self <? s)%float.
  { destruct (completed p); simpl; discriminate. }
  destruct (_get_enhanced_context question vector_db) as [ctx|]; [|congruence].
  destruct (format_prompt _ _ _ _ _ _) as [messages|]; [|congruence].
  destruct (llm self messages) as [text|]; simpl; [|discriminate].
  destruct (bool_decide _); simpl; discriminate.
Qed.

(** ** The claims *)

(** C1, as amended. When the similarity does not exceed the threshold and the
    chat model raises, [generate_response] returns the fixed apology string;
    [hints_given] and [completed] are left as they were, and [attempts] is one
    more than before the call. *)
Theorem llm_failure_returns_apology self question vector_db correct_answer
    user_answer p similarity context messages :
  _calculate_similarity self correct_answer user_answer = Ok similarity ->
  (similarity_threshold self <? similarity)%float = false ->
  _get_enhanced_context question vector_db = Ok context ->
  format_prompt (_get_dynamic_prompt_template p) context question user_answer
    (attempts p) (join (py ", ") (hints_given p)) = Ok messages ->
  llm self messages = Raise ->
  exists p',
    generate_response self question vector_db correct_answer user_answer p
    = (Ok (py "I encountered an issue generating feedback. Please try again or rephrase your answer."), p') /\
    attempts p' = attempts p + 1 /\
    hints_given p' = hints_given p /\
    completed p' = completed p.
Proof.
  intros Hs Hle Hc Hf Hl. eexists. split.
  - exact (llm_failure_path _ _ _ _ _ _ _ _ _ Hs Hle Hc Hf Hl).
  - simpl. auto.
Qed.

(** C2. On a progress with [completed = False], a call whose similarity
    exceeds the threshold sets [completed], leaves [attempts] (and the hints)
    alone and returns the congratulation: with [attempts = 0] it has the
    "first try" phrase, with [attempts > 0] it reports [attempts + 1]
    attempts, so 3 attempts when [attempts = 2]. *)
Theorem first_correct_answer_congratulates self question vector_db
    correct_answer user_answer p similarity :
  completed p = false ->
  _calculate_similarity self correct_answer user_answer = Ok similarity ->
  (similarity_threshold self <? similarity)%float = true ->
  exists message,
    generate_response self question vector_db correct_answer user_answer p
    = (Ok message, mkLearningProgress true (attempts p) (hints_given p)) /\
    startswith ([PARTY_POPPER] ++ py " Congratulations! ") message = true /\
    (attempts p = 0 -> str_in (py "on your first try") message = true) /\
    (attempts p > 0 ->
     str_in (py "after " ++ str_of_int (attempts p + 1) ++ py " attempts") message = true) /\
    (attempts p = 2 -> str_in (py "after 3 attempts") message = true).
Proof.
  intros Hc Hs Hgt. eexists. split.
  { rewrite (correct_path _ _ _ _ _ _ _ Hs Hgt). apply (handle_first_correct _ Hc). }
  split; [reflexivity|]. split; [|split].
  - intros H0. rewrite H0. reflexivity.
  - intros Hpos. destruct (attempts p =? 0) eqn:E; [lia|].
    match goal with
    | |- str_in ?sub ?message = true =>
        replace message with
          (([PARTY_POPPER] ++ py " Congratulations! "
            ++ py "Well done! You persevered and found the correct answer ")
           ++ sub ++ py ". Your understanding has grown through this process.")
    end.
    2: { rewrite <- !app_assoc. reflexivity. }
    apply str_in_app.
  - intros H2. rewrite H2. reflexivity.
Qed.

(** C3. When the similarity does not exceed the threshold and the chat model
    answers, [attempts] grows by exactly 1, the response contains the hint
    (the stripped answer of the model) and starts with the encouragement
    chosen from [attempts] as it was before the call. *)
Theorem incorrect_answer_gives_hint self question vector_db correct_answer
    user_answer p similarity context messages text :
  _calculate_similarity self correct_answer user_answer = Ok similarity ->
  (similarity_threshold self <? similarity)%float = false ->
  _get_enhanced_context question vector_db = Ok context ->
  format_prompt (_get_dynamic_prompt_template p) context question user_answer
    (attempts p) (join (py ", ") (hints_given p)) = Ok messages ->
  llm self messages = Ok text ->
  exists response p',
    generate_response self question vector_db correct_answer user_answer p
    = (Ok response, p') /\
    attempts p' = attempts p + 1 /\
    response = _get_encouragement (attempts p) ++ LF ++ LF ++ strip text /\
    str_in (strip text) response = true /\
    startswith (_get_encouragement (attempts p)) response = true.
Proof.
  intros Hs Hle Hc Hf Hl. do 2 eexists. split.
  { exact (hint_path _ _ _ _ _ _ _ _ _ _ Hs Hle Hc Hf Hl). }
  split; [reflexivity|]. split; [reflexivity|]. split.
  - rewrite !app_assoc. apply str_in_suffix.
  - apply startswith_app.
Qed.

(** C4. Whatever the services do, one call of [generate_response] returns,
    does not decrease [attempts], does not take [completed] from true to
    false, and keeps the number of hints at most [attempts]. *)
Theorem progress_invariants_preserved self question vector_db correct_answer
    user_answer p :
  exists response p',
    generate_response self question vector_db correct_answer user_answer p
    = (Ok response, p') /\
    attempts p <= attempts p' /\
    (completed p = true -> completed p' = true) /\
    (Z.of_nat (length (hints_given p)) <= attempts p ->
     Z.of_nat (length (hints_given p')) <= attempts p').
Proof.
  destruct (generate_response_cases self question vector_db correct_answer
              user_answer p) as (r & p' & Heq & Hshape).
  exists r, p'. split; [exact Heq|].
  destruct Hshape as [-> | [-> | [-> | [hint ->]]]]; simpl.
  - repeat split; auto; lia.
  - repeat split; auto; lia.
  - repeat split; auto; lia.
  - repeat split; auto; try lia.
    rewrite length_app. simpl. lia.
Qed.

(** C5. An exception that escapes the [try] block of [generate_response]
    (from the similarity computation, the context retrieval or the prompt
    formatting) is caught: the call returns the fixed fallback message and
    the progress is as it was before the call. *)
Theorem unexpected_error_returns_fallback self question vector_db
    correct_answer user_answer p :
  (forall p1,
     generate_response_body self question vector_db correct_answer user_answer p
     = (Raise, p1) ->
     generate_response self question vector_db correct_answer user_answer p
     = (Ok (py "I encountered an issue processing your answer. Please try again."), p)) /\
  (_calculate_similarity self correct_answer user_answer = Raise ->
   generate_response self question vector_db correct_answer user_answer p
   = (Ok FALLBACK, p)) /\
  (forall similarity,
     _calculate_similarity self correct_answer user_answer = Ok similarity ->
     (similarity_threshold self <? similarity)%float = false ->
     _get_enhanced_context question vector_db = Raise ->
     generate_response self question vector_db correct_answer user_answer p
     = (Ok FALLBACK, p)) /\
  (forall similarity context,
     _calculate_similarity self correct_answer user_answer = Ok similarity ->
     (similarity_threshold self <? similarity)%float = false ->
     _get_enhanced_context question vector_db = Ok context ->
     format_prompt (_get_dynamic_prompt_template p) context question user_answer
       (attempts p) (join (py ", ") (hints_given p)) = Raise ->
     generate_response self question vector_db correct_answer user_answer p
     = (Ok FALLBACK, p)) /\
  str_in (py "encountered an issue processing your answer") FALLBACK = true.
Proof.
  split; [|split; [|split; [|split]]].
  - intros p1 Hraise.
    pose proof (body_raises_unchanged _ _ _ _ _ _ _ Hraise) as ->.
    unfold generate_response, try_except. rewrite Hraise. reflexivity.
  - intros Hs. step_monad. rewrite Hs. reflexivity.
  - intros s Hs Hle Hc. step_monad. rewrite Hs, Hle, Hc. reflexivity.
  - intros s ctx Hs Hle Hc Hf. step_monad. rewrite Hs, Hle, Hc, Hf. reflexivity.
  - reflexivity.
Qed.

(** C6. On a completed progress, a call whose similarity exceeds the
    threshold returns the placeholder ["."], which is not the congratulation,
    and leaves the whole progress record as it was. *)
Theorem repeated_correct_answer_is_noop self question vector_db correct_answer
    user_answer p similarity :
  completed p = true ->
  _calculate_similarity self correct_answer user_answer = Ok similarity ->
  (similarity_threshold self <? similarity)%float = true ->
  generate_response self question vector_db correct_answer user_answer p
  = (Ok (py "."), p) /\
  str_in (py "Congratulations") (py ".") = false.
Proof.
  intros Hc Hs Hgt. split; [|reflexivity].
  rewrite (correct_path _ _ _ _ _ _ _ Hs Hgt).
  apply (handle_repeated_correct _ Hc).
Qed.

(** ** Sessions *)

(** A submission that yields a hint counts as an attempt and records the
    hint unless the list already has it. *)
Lemma submit_yields_hint s p hint :
  yields_hint s p hint ->
  exists response,
    submit s p
    = (Ok response,
       mkLearningProgress (completed p) (attempts p + 1)
         (if bool_decide (elem_of hint (hints_given p))
          then hints_given p else hints_given p ++ [hint])).
Proof.
  intros (similarity & context & messages & text & Hs & Hle & Hc & Hf & Hl & <-).
  eexists. unfold submit.
  exact (hint_path _ _ _ _ _ _ _ _ _ _ Hs Hle Hc Hf Hl).
Qed.

(** Hints that are new and pairwise distinct are recorded one per
    submission, in the order of the submissions. *)
Lemma session_records_hints subs :
  forall hints p,
    yield_hints subs hints p ->
    NoDup hints ->
    (forall hint, elem_of hint hints -> ~ elem_of hint (hints_given p)) ->
    exists responses,
      session subs p
      = (Ok responses,
         mkLearningProgress (completed p)
           (attempts p + Z.of_nat (length hints)) (hints_given p ++ hints)).
Proof.
  induction subs as [|s subs IH]; intros [|hint hints] p Hy Hnd Hnew;
    simpl in Hy; try contradiction.
  - exists []. destruct p as [c a h]. simpl.
    rewrite Z.add_0_r, app_nil_r. reflexivity.
  - destruct Hy as [Hy1 Hy2].
    destruct (submit_yields_hint _ _ _ Hy1) as (r & Hsub).
    rewrite bool_decide_eq_false_2 in Hsub by (apply Hnew; left).
    rewrite Hsub in Hy2. simpl in Hy2.
    apply list.NoDup_cons in Hnd as [Hfresh Hnd].
    destruct (IH _ _ Hy2 Hnd) as (rs & Hrs).
    { intros h' Hin Hold. simpl in Hold.
      apply elem_of_app in Hold as [Hold | Hold].
      - apply (Hnew h'); [right; exact Hin | exact Hold].
      - apply list_elem_of_singleton in Hold. subst h'. exact (Hfresh Hin). }
    exists (r :: rs). cbn [session].
    unfold bind at 1. rewrite Hsub.
    unfold bind at 1. rewrite Hrs. unfold ret. cbn [completed attempts hints_given].
    rewrite <- app_assoc. cbn [app].
    replace (attempts p + 1 + Z.of_nat (length hints))
      with (attempts p + Z.of_nat (length (hint :: hints)))
      by (cbn [length]; lia).
    reflexivity.
Qed.

(** C7. [hints_given] only grows at its end; [N] submissions that yield [N]
    pairwise distinct hints on a fresh progress leave [attempts = N] and the
    [N] hints, in order; a submission that yields a hint already in the list
    increments [attempts] and leaves the list alone; so the same hint yielded
    twice is recorded once. *)
Theorem hints_append_only_without_duplicates :
  (forall self question vector_db correct_answer user_answer p,
     exists added,
       hints_given
         (snd (generate_response self question vector_db correct_answer
                 user_answer p))
       = hints_given p ++ added) /\
  (forall subs hints,
     yield_hints subs hints fresh_progress ->
     NoDup hints ->
     attempts (snd (session subs fresh_progress)) = Z.of_nat (length hints) /\
     length (hints_given (snd (session subs fresh_progress))) = length hints /\
     hints_given (snd (session subs fresh_progress)) = hints) /\
  (forall s p hint,
     yields_hint s p hint ->
     elem_of hint (hints_given p) ->
     attempts (snd (submit s p)) = attempts p + 1 /\
     hints_given (snd (submit s p)) = hints_given p) /\
  (forall s1 s2 p hint,
     yields_hint s1 p hint ->
     yields_hint s2 (snd (submit s1 p)) hint ->
     hints_given (snd (submit s2 (snd (submit s1 p))))
     = hints_given (snd (submit s1 p))).
Proof.
  split; [|split; [|split]].
  - intros self question vector_db correct_answer user_answer p.
    destruct (generate_response_cases self question vector_db correct_answer
                user_answer p) as (r & p' & -> & Hshape).
    destruct Hshape as [-> | [-> | [-> | [hint ->]]]]; simpl.
    + exists []. symmetry. apply app_nil_r.
    + exists []. symmetry. apply app_nil_r.
    + exists []. symmetry. apply app_nil_r.
    + exists [hint]. reflexivity.
  - intros subs hints Hy Hnd.
    destruct (session_records_hints subs hints fresh_progress Hy Hnd) as (rs & ->).
    { intros h _ Hin. simpl in Hin. inversion Hin. }
    simpl. auto.
  - intros s p hint Hy Hin.
    destruct (submit_yields_hint _ _ _ Hy) as (r & ->).
    rewrite bool_decide_eq_true_2 by exact Hin. simpl. auto.
  - intros s1 s2 p hint Hy1 Hy2.
    destruct (submit_yields_hint _ _ _ Hy2) as (r2 & ->).
    destruct (submit_yields_hint _ _ _ Hy1) as (r1 & ->). simpl.
    rewrite bool_decide_eq_true_2; [reflexivity|].
    destruct (bool_decide (elem_of hint (hints_given p))) eqn:E.
    + apply bool_decide_eq_true_1 in E. exact E.
    + apply elem_of_app. right. apply list_elem_of_singleton. reflexivity.
Qed.

(** C8. The template is chosen from [attempts] in three tiers: the gentle
    first-attempt template at 0, the more-specific-hints template at 1 and 2,
    the step-by-step template from 3 on; so one more attempt changes the
    template exactly at the steps 0 to 1 and 2 to 3. On the incorrect-answer
    path the template handed to [_generate_llm_response] is the one of the
    progress as it enters the call, the increment coming after. *)
Theorem template_selected_in_three_tiers :
  (forall p, attempts p = 0 ->
     _get_dynamic_prompt_template p = TEMPLATE_FIRST_ATTEMPT) /\
  (forall p, 1 <= attempts p <= 2 ->
     _get_dynamic_prompt_template p = TEMPLATE_MAKING_PROGRESS) /\
  (forall p, 3 <= attempts p ->
     _get_dynamic_prompt_template p = TEMPLATE_STRUGGLING) /\
  (str_in (py "Provide gentle guidance") TEMPLATE_FIRST_ATTEMPT = true /\
   str_in (py "Provide more specific hints") TEMPLATE_MAKING_PROGRESS = true /\
   str_in (py "Break down the problem into smaller steps") TEMPLATE_STRUGGLING = true) /\
  NoDup [TEMPLATE_FIRST_ATTEMPT; TEMPLATE_MAKING_PROGRESS; TEMPLATE_STRUGGLING] /\
  (forall p, 0 <= attempts p ->
     _get_dynamic_prompt_template p
     <> _get_dynamic_prompt_template
          (mkLearningProgress (completed p) (attempts p + 1) (hints_given p))
     <-> attempts p = 0 \/ attempts p = 2) /\
  (forall self question vector_db correct_answer user_answer p similarity context,
     _calculate_similarity self correct_answer user_answer = Ok similarity ->
     (similarity_threshold self <? similarity)%float = false ->
     _get_enhanced_context question vector_db = Ok context ->
     generate_response self question vector_db correct_answer user_answer p
     = try_except
         (do response <- _generate_llm_response self
                           (_get_dynamic_prompt_template p) context question
                           user_answer correct_answer ;;
          run incr_attempts ;;
          ret response)
         (ret FALLBACK) p).
Proof.
  assert (Hnd : NoDup [TEMPLATE_FIRST_ATTEMPT; TEMPLATE_MAKING_PROGRESS;
                        TEMPLATE_STRUGGLING]).
  { apply (bool_decide_eq_true_1 _). vm_compute. reflexivity. }
  assert (H12 : TEMPLATE_FIRST_ATTEMPT <> TEMPLATE_MAKING_PROGRESS).
  { intros E. apply list.NoDup_cons in Hnd as [Hn _]. apply Hn. rewrite E. left. }
  assert (H23 : TEMPLATE_MAKING_PROGRESS <> TEMPLATE_STRUGGLING).
  { intros E. apply list.NoDup_cons in Hnd as [_ Hnd].
    apply list.NoDup_cons in Hnd as [Hn _]. apply Hn. rewrite E. left. }
  unfold _get_dynamic_prompt_template.
  repeat split.
  - intros p H. rewrite H. reflexivity.
  - intros p H. destruct (Z.eqb_spec (attempts p) 0); [lia|].
    destruct (Z.ltb_spec (attempts p) 3); [reflexivity | lia].
  - intros p H. destruct (Z.eqb_spec (attempts p) 0); [lia|].
    destruct (Z.ltb_spec (attempts p) 3); [lia | reflexivity].
  - exact Hnd.
  - simpl. intros Hne.
    destruct (Z.eqb_spec (attempts p) 0); [left; assumption|].
    destruct (Z.eqb_spec (attempts p + 1) 0); [lia|].
    destruct (Z.ltb_spec (attempts p) 3), (Z.ltb_spec (attempts p + 1) 3);
      try lia; congruence.
  - simpl. intros [H0 | H2].
    + rewrite H0. simpl. exact H12.
    + rewrite H2. simpl. exact H23.
  - intros self question vector_db correct_answer user_answer p s ctx Hs Hle Hc.
    step_monad. rewrite Hs, Hle, Hc. reflexivity.
Qed.

(** ** More on strings *)

Lemma startswith_inv (pre s : str) :
  startswith pre s = true -> exists rest, s = pre ++ rest.
Proof.
  revert s. induction pre as [|c pre IH]; intros s H.
  - exists s. reflexivity.
  - destruct s as [|d s]; simpl in H; [discriminate|].
    apply andb_true_iff in H as [Hc Hrest].
    apply N.eqb_eq in Hc. subst d.
    destruct (IH _ Hrest) as (rest & ->). exists rest. reflexivity.
Qed.

Lemma str_in_inv (sub s : str) :
  str_in sub s = true -> exists before after, s = before ++ sub ++ after.
Proof.
  induction s as [|d s IH]; simpl; intros H.
  - rewrite orb_false_r in H. apply startswith_inv in H as (rest & E).
    exists [], rest. exact E.
  - apply orb_true_iff in H as [H | H].
    + apply startswith_inv in H as (rest & E). exists [], rest. exact E.
    + destruct (IH H) as (before & after & ->).
      exists (d :: before), after. reflexivity.
Qed.

Lemma str_in_app_r (sub a b : str) :
  str_in sub b = true -> str_in sub (a ++ b) = true.
Proof.
  intros H. apply str_in_inv in H as (before & after & ->).
  rewrite app_assoc. apply str_in_app.
Qed.

(** What [lstrip] leaves does not start with whitespace. *)
Lemma lstrip_shape (s : str) :
  lstrip s = [] \/ exists c rest, lstrip s = c :: rest /\ isspace c = false.
Proof.
  induction s as [|c s IH]; simpl; [left; reflexivity|].
  destruct (isspace c) eqn:E; [exact IH|].
  right. exists c, s. split; [reflexivity | exact E].
Qed.

Lemma lstrip_snoc (s : str) (c : N) :
  isspace c = false -> lstrip (s ++ [c]) = lstrip s ++ [c].
Proof.
  intros Hc. induction s as [|d s IH]; simpl.
  - rewrite Hc. reflexivity.
  - destruct (isspace d); [exact IH | reflexivity].
Qed.

Lemma rstrip_cons (c : N) (s : str) :
  isspace c = false -> rstrip (c :: s) = c :: rstrip s.
Proof.
  intros Hc. unfold rstrip. simpl.
  rewrite (lstrip_snoc _ _ Hc), rev_app_distr. reflexivity.
Qed.

Lemma strip_head (s : str) (c : N) :
  head (strip s) = Some c -> isspace c = false.
Proof.
  unfold strip.
  destruct (lstrip_shape s) as [-> | (d & rest & -> & Hd)].
  - discriminate.
  - rewrite (rstrip_cons _ _ Hd). simpl. congruence.
Qed.

Lemma last_rev_head (s : str) : list.last (rev s) = head s.
Proof.
  destruct s as [|c s]; [reflexivity|].
  simpl. apply last_snoc.
Qed.

Lemma strip_last (s : str) (c : N) :
  list.last (strip s) = Some c -> isspace c = false.
Proof.
  unfold strip, rstrip. rewrite last_rev_head.
  destruct (lstrip_shape (rev (lstrip s))) as [-> | (d & rest & -> & Hd)].
  - discriminate.
  - simpl. congruence.
Qed.

(** Every encouragement starts with a letter, not with the party popper. *)
Lemma encouragement_head (n : Z) :
  exists c rest, _get_encouragement n = c :: rest /\ c <> PARTY_POPPER.
Proof.
  destruct (decide (n = 0)) as [-> | ?]; [do 2 eexists; split; [reflexivity | discriminate]|].
  destruct (decide (n = 1)) as [-> | ?]; [do 2 eexists; split; [reflexivity | discriminate]|].
  destruct (decide (n = 2)) as [-> | ?]; [do 2 eexists; split; [reflexivity | discriminate]|].
  destruct (decide (n = 3)) as [-> | ?]; [do 2 eexists; split; [reflexivity | discriminate]|].
  destruct (decide (n = 4)) as [-> | ?]; [do 2 eexists; split; [reflexivity | discriminate]|].
  unfold _get_encouragement, encouragements.
  rewrite !lookup_insert_ne by lia. rewrite lookup_empty.
  do 2 eexists; split; [reflexivity | discriminate].
Qed.

(** ** The outcomes of a call *)

Lemma judged_correct_or_reaches s p messages :
  judged_correct s -> reaches_chat_model s p messages -> False.
Proof.
  intros (s1 & H1 & G1) (s2 & ctx & H2 & G2 & _).
  rewrite H1 in H2. injection H2 as ->. congruence.
Qed.

Lemma yields_hint_reaches s p hint :
  yields_hint s p hint -> exists messages, reaches_chat_model s p messages.
Proof.
  intros (similarity & context & messages & text & Hs & Hle & Hc & Hf & _).
  exists messages, similarity, context. auto.
Qed.

(** A call ends in one of four ways: the answer is judged correct; the chat
    model is reached and raises; the chat model is reached and answers; or
    the exception handler of [generate_response] is entered. *)
Lemma submit_outcomes s p :
  (judged_correct s /\ submit s p = _handle_correct_answer p)
  \/ (exists messages,
        reaches_chat_model s p messages /\
        llm (sub_self s) messages = Raise /\
        submit s p
        = (Ok APOLOGY,
           mkLearningProgress (completed p) (attempts p + 1) (hints_given p)))
  \/ (exists hint,
        yields_hint s p hint /\
        submit s p
        = (Ok (_get_encouragement (attempts p) ++ LF ++ LF ++ hint),
           mkLearningProgress (completed p) (attempts p + 1)
             (if bool_decide (elem_of hint (hints_given p))
              then hints_given p else hints_given p ++ [hint])))
  \/ (~ judged_correct s /\
      (forall messages, ~ reaches_chat_model s p messages) /\
      submit s p = (Ok FALLBACK, p)).
Proof.
  unfold submit.
  destruct (_calculate_similarity (sub_self s) (sub_correct_answer s)
              (sub_user_answer s)) as [similarity|] eqn:Hs.
  2: { right; right; right. split; [|split].
       - intros (x & Hx & _). congruence.
       - intros m (x & c & Hx & _). congruence.
       - step_monad. rewrite Hs. reflexivity. }
  destruct (similarity_threshold (sub_self s) <? similarity)%float eqn:Hgt.
  { left. split; [exists similarity; auto|].
    exact (correct_path _ _ _ _ _ _ _ Hs Hgt). }
  assert (Hnot : ~ judged_correct s).
  { intros (x & Hx & Gx). rewrite Hs in Hx. injection Hx as ->. congruence. }
  destruct (_get_enhanced_context (sub_question s) (sub_vector_db s))
    as [context|] eqn:Hc.
  2: { right; right; right. split; [exact Hnot|split].
       - intros m (x & c & _ & _ & Hx & _). congruence.
       - step_monad. rewrite Hs, Hgt, Hc. reflexivity. }
  destruct (format_prompt (_get_dynamic_prompt_template p) context
              (sub_question s) (sub_user_answer s) (attempts p)
              (join (py ", ") (hints_given p))) as [messages|] eqn:Hf.
  2: { right; right; right. split; [exact Hnot|split].
       - intros m (x & c & _ & _ & Hx & Hm).
         rewrite Hc in Hx. injection Hx as <-. congruence.
       - step_monad. rewrite Hs, Hgt, Hc, Hf. reflexivity. }
  destruct (llm (sub_self s) messages) as [text|] eqn:Hl.
  - right; right; left. exists (strip text). split.
    + exists similarity, context, messages, text. auto 6.
    + exact (hint_path _ _ _ _ _ _ _ _ _ _ Hs Hgt Hc Hf Hl).
  - right; left. exists messages. split; [|split].
    + exists similarity, context. auto.
    + exact Hl.
    + exact (llm_failure_path _ _ _ _ _ _ _ _ _ Hs Hgt Hc Hf Hl).
Qed.

(** What [_handle_correct_answer] does to the progress. *)
Lemma handle_correct_progress p :
  snd (_handle_correct_answer p)
  = mkLearningProgress true (attempts p) (hints_given p).
Proof.
  destruct (completed p) eqn:Hc.
  - rewrite (handle_repeated_correct _ Hc). destruct p; simpl in *; congruence.
  - rewrite (handle_first_correct _ Hc). reflexivity.
Qed.

(** ** When the fields change *)

(** X1. [attempts] goes up by one exactly when the call gets as far as the
    chat model, whether the model then answers or raises; in every other call
    it keeps its value. *)
Theorem attempts_count_chat_model_turns s p :
  (attempts (snd (submit s p)) = attempts p + 1
   <-> exists messages, reaches_chat_model s p messages) /\
  (attempts (snd (submit s p)) = attempts p
   <-> forall messages, ~ reaches_chat_model s p messages).
Proof.
  destruct (submit_outcomes s p)
    as [(Hj & E) | [(m & Hr & _ & E) | [(hint & Hy & E) | (_ & Hn & E)]]].
  - assert (Ha : attempts (snd (submit s p)) = attempts p)
      by (rewrite E, handle_correct_progress; reflexivity).
    assert (Hno : forall m, ~ reaches_chat_model s p m)
      by (intros m Hm; exact (judged_correct_or_reaches _ _ _ Hj Hm)).
    rewrite Ha. split; split; try lia; auto.
    intros (m & Hm). destruct (Hno _ Hm).
  - rewrite E. simpl. split; split; try lia; eauto.
    intros Hno. destruct (Hno _ Hr).
  - destruct (yields_hint_reaches _ _ _ Hy) as (m & Hr).
    rewrite E. simpl. split; split; try lia; eauto.
    intros Hno. destruct (Hno _ Hr).
  - rewrite E. simpl. split; split; try lia; auto.
    intros (m & Hm). destruct (Hn _ Hm).
Qed.

(** X2. After a call [completed] is true exactly when it was true before or
    the similarity of this answer exceeds the threshold. *)
Theorem completed_iff_judged_correct s p :
  completed (snd (submit s p)) = true
  <-> completed p = true \/ judged_correct s.
Proof.
  destruct (submit_outcomes s p)
    as [(Hj & E) | [(m & Hr & _ & E) | [(hint & Hy & E) | (Hn & _ & E)]]].
  - rewrite E, handle_correct_progress. simpl. split; auto.
  - rewrite E. simpl. split; [auto|]. intros [H | Hj]; [exact H|].
    destruct (judged_correct_or_reaches _ _ _ Hj Hr).
  - destruct (yields_hint_reaches _ _ _ Hy) as (m & Hr).
    rewrite E. simpl. split; [auto|]. intros [H | Hj]; [exact H|].
    destruct (judged_correct_or_reaches _ _ _ Hj Hr).
  - rewrite E. simpl. split; [auto|]. intros [H | Hj]; [exact H|].
    destruct (Hn Hj).
Qed.

Lemma yields_hint_unique s p hint1 hint2 :
  yields_hint s p hint1 -> yields_hint s p hint2 -> hint1 = hint2.
Proof.
  intros (s1 & c1 & m1 & t1 & Hs1 & _ & Hc1 & Hf1 & Hl1 & <-)
         (s2 & c2 & m2 & t2 & Hs2 & _ & Hc2 & Hf2 & Hl2 & <-).
  rewrite Hc1 in Hc2. injection Hc2 as <-.
  rewrite Hf1 in Hf2. injection Hf2 as <-.
  rewrite Hl1 in Hl2. injection Hl2 as <-. reflexivity.
Qed.

Lemma app_singleton_neq (h : list str) (x : str) : h <> h ++ [x].
Proof.
  intros E. apply (f_equal length) in E. rewrite length_app in E.
  simpl in E. lia.
Qed.

(** X3. A call appends [hint] to [hints_given] exactly when the chat model
    produces that hint and the list does not have it yet; a call that
    appends nothing leaves the list as it was. *)
Theorem hint_recorded_iff_new s p hint :
  (hints_given (snd (submit s p)) = hints_given p ++ [hint]
   <-> yields_hint s p hint /\ ~ elem_of hint (hints_given p)) /\
  (hints_given (snd (submit s p)) = hints_given p
   \/ exists added, hints_given (snd (submit s p)) = hints_given p ++ [added]).
Proof.
  destruct (submit_outcomes s p)
    as [(Hj & E) | [(m & Hr & Hl & E) | [(hint' & Hy & E) | (_ & Hn & E)]]].
  - rewrite E, handle_correct_progress. simpl. split; [|auto]. split.
    + intros H. destruct (app_singleton_neq _ _ H).
    + intros [Hy _]. destruct (yields_hint_reaches _ _ _ Hy) as (m & Hr).
      destruct (judged_correct_or_reaches _ _ _ Hj Hr).
  - rewrite E. simpl. split; [|auto]. split.
    + intros H. destruct (app_singleton_neq _ _ H).
    + intros [(s1 & c1 & m1 & t1 & _ & _ & Hc1 & Hf1 & Hl1 & _) _].
      destruct Hr as (s2 & c2 & _ & _ & Hc2 & Hf2).
      rewrite Hc1 in Hc2. injection Hc2 as <-.
      rewrite Hf1 in Hf2. injection Hf2 as <-. congruence.
  - rewrite E. simpl.
    destruct (bool_decide (elem_of hint' (hints_given p))) eqn:B.
    + apply bool_decide_eq_true_1 in B. split; [|auto]. split.
      * intros H. destruct (app_singleton_neq _ _ H).
      * intros [Hy2 Hnew]. rewrite (yields_hint_unique _ _ _ _ Hy2 Hy) in Hnew.
        destruct (Hnew B).
    + apply bool_decide_eq_false_1 in B. split; [|eauto]. split.
      * intros H. apply app_inj_tail in H as [_ <-]. auto.
      * intros [Hy2 _]. rewrite (yields_hint_unique _ _ _ _ Hy2 Hy). reflexivity.
  - rewrite E. split; [|auto]. split.
    + intros H. destruct (app_singleton_neq _ _ H).
    + intros [Hy _]. destruct (yields_hint_reaches _ _ _ Hy) as (m & Hr).
      destruct (Hn _ Hr).
Qed.

(** X4. A hint that a call adds to [hints_given] has no whitespace at its
    start or at its end. *)
Theorem recorded_hints_are_stripped s p hint :
  elem_of hint (hints_given (snd (submit s p))) ->
  ~ elem_of hint (hints_given p) ->
  (forall c, head hint = Some c -> isspace c = false) /\
  (forall c, list.last hint = Some c -> isspace c = false).
Proof.
  intros Hin Hnew.
  destruct (submit_outcomes s p)
    as [(Hj & E) | [(m & Hr & Hl & E) | [(hint' & Hy & E) | (_ & Hn & E)]]];
    rewrite E in Hin.
  - rewrite handle_correct_progress in Hin. destruct (Hnew Hin).
  - destruct (Hnew Hin).
  - simpl in Hin.
    destruct (bool_decide (elem_of hint' (hints_given p))); [destruct (Hnew Hin)|].
    apply elem_of_app in Hin as [Hin | Hin]; [destruct (Hnew Hin)|].
    apply list_elem_of_singleton in Hin. subst hint'.
    destruct Hy as (_ & _ & _ & text & _ & _ & _ & _ & _ & <-).
    split; intros c; [apply strip_head | apply strip_last].
  - destruct (Hnew Hin).
Qed.

(** ** Whole sessions *)

(** What one call keeps, whichever way it ends. *)
Lemma submit_step s p :
  exists response p',
    submit s p = (Ok response, p') /\
    response <> [] /\
    attempts p <= attempts p' <= attempts p + 1 /\
    (completed p = true -> completed p' = true) /\
    (Z.of_nat (length (hints_given p)) <= attempts p ->
     Z.of_nat (length (hints_given p')) <= attempts p') /\
    (NoDup (hints_given p) -> NoDup (hints_given p')) /\
    (is_congratulation response = true ->
     completed p = false /\ completed p' = true) /\
    (completed p = true -> is_congratulation response = false).
Proof.
  destruct (submit_outcomes s p)
    as [(Hj & E) | [(m & Hr & Hl & E) | [(hint & Hy & E) | (_ & Hn & E)]]];
    rewrite E.
  - destruct (completed p) eqn:Hc.
    + rewrite (handle_repeated_correct _ Hc). do 2 eexists.
      split; [reflexivity|]. repeat split; auto; try lia; discriminate.
    + rewrite (handle_first_correct _ Hc). do 2 eexists.
      split; [reflexivity|]. simpl. repeat split; auto; try lia; discriminate.
  - do 2 eexists. split; [reflexivity|]. simpl.
    repeat split; auto; try lia; discriminate.
  - destruct (encouragement_head (attempts p)) as (c & rest & Henc & Hc).
    assert (Hcong : is_congratulation
                      (_get_encouragement (attempts p) ++ LF ++ LF ++ hint)
                    = false).
    { rewrite Henc. unfold is_congratulation. cbn [app startswith].
      destruct (N.eqb_spec PARTY_POPPER c); [congruence | reflexivity]. }
    do 2 eexists. split; [reflexivity|]. rewrite Hcong.
    cbn [completed attempts hints_given].
    repeat split; auto; try lia; try discriminate.
    + rewrite Henc. discriminate.
    + destruct (bool_decide (elem_of hint (hints_given p))); [lia|].
      rewrite length_app. simpl. lia.
    + intros Hnd.
      destruct (bool_decide (elem_of hint (hints_given p))) eqn:B; [exact Hnd|].
      apply bool_decide_eq_false_1 in B.
      apply list.NoDup_app. split; [exact Hnd|]. split.
      * intros x Hx Hx'. apply list_elem_of_singleton in Hx'. subst x. auto.
      * apply list.NoDup_singleton.
  - do 2 eexists. split; [reflexivity|].
    repeat split; auto; try lia; discriminate.
Qed.

Lemma session_steps subs :
  forall p,
  exists responses p',
    session subs p = (Ok responses, p') /\
    length responses = length subs /\
    Forall (fun response => response <> []) responses /\
    attempts p <= attempts p' <= attempts p + Z.of_nat (length subs) /\
    (completed p = true -> completed p' = true) /\
    (Z.of_nat (length (hints_given p)) <= attempts p ->
     Z.of_nat (length (hints_given p')) <= attempts p') /\
    (NoDup (hints_given p) -> NoDup (hints_given p')) /\
    (length (List.filter is_congratulation responses) <= 1)%nat /\
    (completed p = true -> List.filter is_congratulation responses = []).
Proof.
  induction subs as [|s subs IH]; intros p.
  - exists [], p. simpl. repeat split; auto; lia.
  - destruct (submit_step s p)
      as (r & p1 & E1 & Hne & Ha & Hc & Hh & Hnd & Hcong & Hdone).
    destruct (IH p1)
      as (rs & p' & E2 & Hlen & Hall & Ha2 & Hc2 & Hh2 & Hnd2 & Hone & Hnone).
    exists (r :: rs), p'. cbn [session].
    unfold bind at 1. rewrite E1. unfold bind at 1. rewrite E2.
    split; [reflexivity|].
    split; [simpl; lia|].
    split; [constructor; assumption|].
    split; [cbn [length]; lia|].
    split; [auto|]. split; [auto|]. split; [auto|].
    cbn [List.filter].
    destruct (is_congratulation r) eqn:Hr.
    + destruct (Hcong eq_refl) as [Hfalse Htrue].
      rewrite (Hnone Htrue). split; [simpl; lia|].
      intros Hp. congruence.
    + split; [exact Hone|]. intros Hp. apply Hnone, Hc, Hp.
Qed.

(** X5. A session of any length, whatever the services do at each turn,
    returns one non-empty response per submission; [attempts] never goes down
    and grows by at most one per submission; [completed] never goes back to
    false; and the number of hints stays at most [attempts]. *)
Theorem session_keeps_progress_invariants subs p :
  exists responses p',
    session subs p = (Ok responses, p') /\
    length responses = length subs /\
    Forall (fun response => response <> []) responses /\
    attempts p <= attempts p' <= attempts p + Z.of_nat (length subs) /\
    (completed p = true -> completed p' = true) /\
    (Z.of_nat (length (hints_given p)) <= attempts p ->
     Z.of_nat (length (hints_given p')) <= attempts p').
Proof.
  destruct (session_steps subs p)
    as (rs & p' & E & Hlen & Hall & Ha & Hc & Hh & _).
  exists rs, p'. auto 10.
Qed.

(** X6. A session never puts the same hint twice in [hints_given]: a list
    without duplicates, such as the empty list of a new progress, is without
    duplicates after any number of submissions. *)
Theorem session_keeps_hints_distinct subs p :
  NoDup (hints_given p) ->
  NoDup (hints_given (snd (session subs p))).
Proof.
  intros Hnd.
  destruct (session_steps subs p)
    as (rs & p' & E & _ & _ & _ & _ & _ & H & _).
  rewrite E. exact (H Hnd).
Qed.

(** X7. The congratulation is given at most once in a session, and not at
    all in a session that starts from a completed progress. *)
Theorem congratulation_at_most_once subs p :
  exists responses p',
    session subs p = (Ok responses, p') /\
    (length (List.filter is_congratulation responses) <= 1)%nat /\
    (completed p = true -> List.filter is_congratulation responses = []).
Proof.
  destruct (session_steps subs p)
    as (rs & p' & E & _ & _ & _ & _ & _ & _ & Hone & Hnone).
  exists rs, p'. auto.
Qed.

(** ** The balloons of [student_app.py] *)

Lemma startswith_before (sub u b : str) (x : N) :
  ~ elem_of x sub ->
  startswith sub (u ++ x :: b) = true ->
  startswith sub u = true.
Proof.
  revert u. induction sub as [|c sub IH]; intros u Hx H; [reflexivity|].
  destruct u as [|d u]; simpl in H.
  - apply andb_true_iff in H as [Hc _]. apply N.eqb_eq in Hc. subst c.
    destruct Hx. left.
  - apply andb_true_iff in H as [Hc Hrest]. simpl. rewrite Hc. simpl.
    apply IH; [|exact Hrest]. intros Hin. apply Hx. right. exact Hin.
Qed.

(** An occurrence of [sub] cannot lie across a character [sub] does not
    have. *)
Lemma str_in_across (sub a b : str) (x : N) :
  ~ elem_of x sub ->
  str_in sub (a ++ x :: b) = true ->
  str_in sub a = true \/ str_in sub b = true.
Proof.
  intros Hx. induction a as [|d a IH]; intros H.
  - change ([] ++ x :: b) with (x :: b) in H. simpl in H.
    apply orb_true_iff in H as [H | H]; [|right; exact H].
    left. apply startswith_str_in.
    exact (startswith_before sub [] b x Hx H).
  - change ((d :: a) ++ x :: b) with (d :: (a ++ x :: b)) in H.
    cbn [str_in] in H. apply orb_true_iff in H as [H | H].
    + left. apply startswith_str_in.
      exact (startswith_before sub (d :: a) b x Hx H).
    + destruct (IH H) as [Ha | Hb]; [left | right; exact Hb].
      cbn [str_in]. rewrite Ha. apply orb_true_r.
Qed.

Lemma encouragement_has_no_congratulations (n : Z) :
  shows_balloons (_get_encouragement n) = false.
Proof.
  destruct (decide (n = 0)) as [-> | ?]; [reflexivity|].
  destruct (decide (n = 1)) as [-> | ?]; [reflexivity|].
  destruct (decide (n = 2)) as [-> | ?]; [reflexivity|].
  destruct (decide (n = 3)) as [-> | ?]; [reflexivity|].
  destruct (decide (n = 4)) as [-> | ?]; [reflexivity|].
  unfold _get_encouragement, encouragements.
  rewrite !lookup_insert_ne by lia. rewrite lookup_empty. reflexivity.
Qed.

Lemma congratulations_has_no_line_feed :
  ~ elem_of 10%N (py "Congratulations").
Proof.
  apply (bool_decide_eq_false_1 _). reflexivity.
Qed.

Lemma balloons_on_hint_response (n : Z) (hint : str) :
  shows_balloons (_get_encouragement n ++ LF ++ LF ++ hint)
  = shows_balloons hint.
Proof.
  unfold shows_balloons.
  destruct (str_in (py "Congratulations") hint) eqn:Hh.
  - rewrite !app_assoc. apply str_in_app_r. exact Hh.
  - destruct (str_in (py "Congratulations")
                (_get_encouragement n ++ LF ++ LF ++ hint)) eqn:Hr;
      [|reflexivity].
    change (LF ++ LF ++ hint) with (10%N :: ([] ++ 10%N :: hint)) in Hr.
    apply (str_in_across _ _ _ _ congratulations_has_no_line_feed) in Hr
      as [He | Hr].
    + pose proof (encouragement_has_no_congratulations n) as Hn.
      unfold shows_balloons in Hn. congruence.
    + apply (str_in_across _ _ _ _ congratulations_has_no_line_feed) in Hr
        as [He | Hr]; [discriminate He | congruence].
Qed.

(** X8. The test ["Congratulations" in response] of the student page holds
    for the response to a correct answer exactly when the progress was not
    completed yet; it fails on the apology and on the fallback; and on a hint
    turn it holds exactly when the generated hint itself has the word, so
    such a hint releases the balloons on an answer judged incorrect. *)
Theorem balloons_follow_the_word s p :
  exists response p',
    submit s p = (Ok response, p') /\
    (judged_correct s -> shows_balloons response = negb (completed p)) /\
    (forall hint, yields_hint s p hint ->
       shows_balloons response = shows_balloons hint) /\
    (~ judged_correct s -> (forall hint, ~ yields_hint s p hint) ->
     shows_balloons response = false).
Proof.
  destruct (submit_outcomes s p)
    as [(Hj & E) | [(m & Hr & Hl & E) | [(hint & Hy & E) | (Hn & Hno & E)]]];
    rewrite E.
  - destruct (completed p) eqn:Hc.
    + rewrite (handle_repeated_correct _ Hc). do 2 eexists.
      split; [reflexivity|]. split; [reflexivity|]. split.
      * intros h Hy. destruct (yields_hint_reaches _ _ _ Hy) as (m & Hr).
        destruct (judged_correct_or_reaches _ _ _ Hj Hr).
      * intros Hn. destruct (Hn Hj).
    + rewrite (handle_first_correct _ Hc). do 2 eexists.
      split; [reflexivity|]. split.
      * intros _. unfold shows_balloons.
        change ([PARTY_POPPER] ++ py " Congratulations! " ++ ?x)
          with ([PARTY_POPPER; 32%N] ++ py "Congratulations" ++ py "! " ++ x).
        apply str_in_app.
      * split.
        -- intros h Hy. destruct (yields_hint_reaches _ _ _ Hy) as (m & Hr).
           destruct (judged_correct_or_reaches _ _ _ Hj Hr).
        -- intros Hn. destruct (Hn Hj).
  - do 2 eexists. split; [reflexivity|]. split; [|split].
    + intros Hj. destruct (judged_correct_or_reaches _ _ _ Hj Hr).
    + intros h (s1 & c1 & m1 & t1 & _ & _ & Hc1 & Hf1 & Hl1 & _).
      destruct Hr as (s2 & c2 & _ & _ & Hc2 & Hf2).
      rewrite Hc1 in Hc2. injection Hc2 as <-.
      rewrite Hf1 in Hf2. injection Hf2 as <-. congruence.
    + reflexivity.
  - do 2 eexists. split; [reflexivity|]. split; [|split].
    + intros Hj. destruct (yields_hint_reaches _ _ _ Hy) as (m & Hr).
      destruct (judged_correct_or_reaches _ _ _ Hj Hr).
    + intros h Hy2. rewrite (yields_hint_unique _ _ _ _ Hy2 Hy).
      apply balloons_on_hint_response.
    + intros _ Hnone. destruct (Hnone _ Hy).
  - do 2 eexists. split; [reflexivity|]. split; [|split].
    + intros Hj. destruct (Hn Hj).
    + intros h Hy. destruct (yields_hint_reaches _ _ _ Hy) as (m & Hr).
      destruct (Hno _ Hr).
    + reflexivity.
Qed.

(** ** The context *)

(** X10. The context is made of the first three passages the retriever
    returns, joined by line feeds, and is empty when it returns none; so two
    vector stores whose answers to the question agree on their first three
    passages lead to the same response and the same progress. *)
Theorem context_is_first_three_passages self question vector_db1 vector_db2
    correct_answer user_answer p docs1 docs2 :
  vector_db1 question = Ok docs1 ->
  vector_db2 question = Ok docs2 ->
  take 3 docs1 = take 3 docs2 ->
  _get_enhanced_context question vector_db1 = Ok (join LF (take 3 docs1)) /\
  (docs1 = [] -> _get_enhanced_context question vector_db1 = Ok []) /\
  generate_response self question vector_db1 correct_answer user_answer p
  = generate_response self question vector_db2 correct_answer user_answer p.
Proof.
  intros H1 H2 H3.
  assert (E1 : _get_enhanced_context question vector_db1
               = Ok (join LF (take 3 docs1)))
    by (unfold _get_enhanced_context; rewrite H1; reflexivity).
  assert (E2 : _get_enhanced_context question vector_db2
               = Ok (join LF (take 3 docs1)))
    by (unfold _get_enhanced_context; rewrite H2, H3; reflexivity).
  split; [exact E1|]. split.
  - intros ->. exact E1.
  - step_monad. rewrite E1, E2. reflexivity.
Qed.

(** ** The student page *)

Ltac step_page :=
  cbv beta iota zeta delta
    [setup_student_ui init_session_state load_materials handle_input respond
     append_message show st_try_except st_bind st_call st_get st_modify st_ret
     fst snd];
  cbn [ss_messages ss_progress ss_vector_db].

(** X15. A vector store that is in the session state stays there: a run
    never replaces it, whichever exercise is selected, and does not read the
    reference material at all. *)
Theorem vector_store_is_never_replaced inp st vector_db :
  ss_vector_db (fst st) = Some vector_db ->
  ss_vector_db (fst (snd (setup_student_ui inp st))) = Some vector_db /\
  forall pdf_open emb os,
    setup_student_ui
      (mkPageInputs (in_exercises inp) (in_selected inp) pdf_open emb os
         (in_user_input inp) (in_generator inp)) st
    = setup_student_ui inp st.
Proof.
  destruct st as [[messages progress vdb] log]. simpl. intros ->.
  split.
  - step_page.
    destruct (in_exercises inp) as [[[|e0 exercises]|]|]; try reflexivity.
    destruct ((e0 :: exercises) !! in_selected inp) as [e|]; [|reflexivity].
    step_page.
    destruct (in_user_input inp) as [[|c rest]|]; try reflexivity.
    step_page.
    destruct (in_generator inp) as [g|]; step_page; [|reflexivity].
    destruct (generate_response_cases g (ex_question e) vector_db
                (ex_correct_answer e) (c :: rest)
                (match progress with Some p => p | None => fresh_progress end))
      as (r & p' & E & _).
    rewrite E. step_page.
    destruct (shows_balloons r); reflexivity.
  - intros pdf_open emb os. step_page. cbn [in_exercises in_selected].
    destruct (in_exercises inp) as [[[|e0 exercises]|]|]; try reflexivity.
    destruct ((e0 :: exercises) !! in_selected inp) as [e|]; reflexivity.
Qed.

(** X16. With a vector store in the session, an answer of the student is
    put in the history, [generate_response] is called on the progress of the
    session with the question and the correct answer of the selected
    exercise, and its response is put in the history after the answer; the
    progress of the session becomes the one the call leaves; the balloons
    are released when the response has the word; and the page is run again. *)
Theorem answer_is_recorded_with_its_response inp messages p vector_db log
    exercises e c rest g :
  in_exercises inp = Some (Ok exercises) ->
  exercises !! in_selected inp = Some e ->
  in_user_input inp = Some (c :: rest) ->
  in_generator inp = Ok g ->
  exists response p',
    generate_response g (ex_question e) vector_db (ex_correct_answer e)
      (c :: rest) p
    = (Ok response, p') /\
    setup_student_ui inp
      (mkSessionState (Some messages) (Some p) (Some vector_db), log)
    = (Ok tt,
       (mkSessionState
          (Some (messages ++ [mkMessage (py "user") (c :: rest);
                              mkMessage (py "assistant") response]))
          (Some p') (Some vector_db),
        log ++ (if shows_balloons response then [Balloons] else []) ++ [Rerun])).
Proof.
  intros Hex Hsel Hin Hgen.
  destruct (generate_response_cases g (ex_question e) vector_db
              (ex_correct_answer e) (c :: rest) p) as (r & p' & E & _).
  exists r, p'. split; [exact E|].
  step_page. rewrite Hex.
  destruct exercises as [|e0 exercises]; [discriminate Hsel|].
  rewrite Hsel. step_page. rewrite Hin. step_page. rewrite Hgen. step_page.
  rewrite E. step_page.
  destruct (shows_balloons r); step_page;
    rewrite <- !app_assoc; reflexivity.
Qed.

(** X17. The progress belongs to the session, not to the exercise: once it
    is completed, a correct answer to whichever exercise is selected gets the
    placeholder ["."] for a response, without balloons, and the progress
    stays as it is. *)
Theorem completed_progress_is_shared_by_exercises inp messages p vector_db log
    exercises e c rest g similarity :
  in_exercises inp = Some (Ok exercises) ->
  exercises !! in_selected inp = Some e ->
  in_user_input inp = Some (c :: rest) ->
  in_generator inp = Ok g ->
  completed p = true ->
  _calculate_similarity g (ex_correct_answer e) (c :: rest) = Ok similarity ->
  (similarity_threshold g <? similarity)%float = true ->
  setup_student_ui inp
    (mkSessionState (Some messages) (Some p) (Some vector_db), log)
  = (Ok tt,
     (mkSessionState
        (Some (messages ++ [mkMessage (py "user") (c :: rest);
                            mkMessage (py "assistant") (py ".")]))
        (Some p) (Some vector_db),
      log ++ [Rerun])).
Proof.
  intros Hex Hsel Hin Hgen Hdone Hs Hgt.
  assert (E : generate_response g (ex_question e) vector_db (ex_correct_answer e)
                (c :: rest) p = (Ok (py "."), p)).
  { rewrite (correct_path _ _ _ _ _ _ _ Hs Hgt).
    apply handle_repeated_correct, Hdone. }
  step_page. rewrite Hex.
  destruct exercises as [|e0 exercises]; [discriminate Hsel|].
  rewrite Hsel. step_page. rewrite Hin. step_page. rewrite Hgen. step_page.
  rewrite E. step_page.
  change (shows_balloons (py ".")) with false. step_page.
  rewrite <- !app_assoc. reflexivity.
Qed.

(** X18. When the session has no vector store and the reference material
    cannot be loaded (the file cannot be opened, the embeddings client cannot
    be built, or [create_vector_db] raises), the run shows the error and
    stops: an answer the student has typed is not put in the history, the
    progress is not touched, and the session still has no vector store. *)
Theorem failed_materials_drop_the_answer inp messages progress log exercises e :
  in_exercises inp = Some (Ok exercises) ->
  exercises !! in_selected inp = Some e ->
  (in_pdf_open inp (ex_id e ++ py ".pdf") = Raise
   \/ (exists f, in_pdf_open inp (ex_id e ++ py ".pdf") = Ok f /\
                 in_embeddings inp = Raise)
   \/ (exists f emb,
         in_pdf_open inp (ex_id e ++ py ".pdf") = Ok f /\
         in_embeddings inp = Ok emb /\
         fst (create_vector_db (in_platform inp) f (DocumentProcessor_init emb, []))
         = Raise)) ->
  setup_student_ui inp (mkSessionState messages progress None, log)
  = (Ok tt,
     (mkSessionState
        (Some (match messages with Some m => m | None => [] end))
        (Some (match progress with Some p => p | None => fresh_progress end))
        None,
      log ++ [MaterialsError])).
Proof.
  intros Hex Hsel Hfail. step_page. rewrite Hex.
  destruct exercises as [|e0 exercises]; [discriminate Hsel|].
  rewrite Hsel. step_page.
  destruct Hfail as [Ho | [(f & Ho & He) | (f & emb & Ho & He & Hc)]].
  - rewrite Ho. reflexivity.
  - rewrite Ho, He. reflexivity.
  - rewrite Ho, He. step_page.
    cbv beta iota zeta delta [fst] in Hc. rewrite Hc. reflexivity.
Qed.

End Evaluator.

(** ** Encouragement *)

(** Outside the keys of the dict the default is returned. *)
Lemma encouragement_default (n : Z) :
  n < 0 \/ 4 < n -> _get_encouragement n = KEEP_PERSEVERING.
Proof.
  intros H. unfold _get_encouragement, encouragements.
  rewrite !lookup_insert_ne by lia.
  rewrite lookup_empty. reflexivity.
Qed.

(** C9. The encouragement is a function of the attempt count alone: 0 to 4
    have a line each ("Let's start exploring this together!", a "making
    progress" line, a "getting closer" line, a "Don't give up" line, a "great
    effort" line), all different, and every count from 5 on has the generic
    "Keep persevering" line. *)
Theorem encouragement_by_attempt_count :
  _get_encouragement 0 = py "Let's start exploring this together!" /\
  _get_encouragement 1 = py "You're making progress! Keep thinking about it." /\
  _get_encouragement 2 = py "You're getting closer! Consider these points:" /\
  _get_encouragement 3 = py "Don't give up! Here's a different way to think about it:" /\
  _get_encouragement 4 = py "You're putting in great effort! Let's break this down further:" /\
  (forall attempts, 5 <= attempts ->
     _get_encouragement attempts = py "Keep persevering! Here's some guidance:") /\
  NoDup [_get_encouragement 0; _get_encouragement 1; _get_encouragement 2;
         _get_encouragement 3; _get_encouragement 4; KEEP_PERSEVERING].
Proof.
  repeat split; try (vm_compute; reflexivity).
  - intros n Hn. apply encouragement_default. lia.
  - apply (bool_decide_eq_true_1 _). vm_compute. reflexivity.
Qed.

(** ** Construction *)

Lemma new_list_lookup (st : store) : (st ++ [[]]) !! length st = Some ([] : list str).
Proof.
  apply list_lookup_middle. reflexivity.
Qed.

(** C10. [LearningProgress()] has [completed = False], [attempts = 0] and an
    empty [hints_given]; whatever the arguments, [hints_given] is not [None]
    after construction; and two instances built by default refer to different
    list objects, so a hint appended through one does not show in the other. *)
Theorem default_progress_is_fresh :
  (forall st,
     view (snd (LearningProgress_default st)) (fst (LearningProgress_default st))
     = Some (mkLearningProgress false 0 [])) /\
  (forall completed attempts hints_given st,
     obj_hints_given (fst (LearningProgress_new completed attempts hints_given st))
     <> None) /\
  (forall st,
     let a := fst (LearningProgress_default st) in
     let st1 := snd (LearningProgress_default st) in
     let b := fst (LearningProgress_default st1) in
     let st2 := snd (LearningProgress_default st1) in
     obj_hints_given a <> obj_hints_given b /\
     view st2 a = Some (mkLearningProgress false 0 []) /\
     view st2 b = Some (mkLearningProgress false 0 []) /\
     forall hint,
       view (append_to a hint st2) a = Some (mkLearningProgress false 0 [hint]) /\
       view (append_to a hint st2) b = Some (mkLearningProgress false 0 [])).
Proof.
  split; [|split].
  - intros st. unfold view. simpl. rewrite new_list_lookup. reflexivity.
  - intros c a [r|] st; simpl; discriminate.
  - intros st. simpl. unfold view, append_to. simpl.
    assert (Hb : ((st ++ [[]]) ++ [[]]) !! length (st ++ [[]]) = Some ([] : list str))
      by apply new_list_lookup.
    assert (Ha : ((st ++ [[]]) ++ [[]]) !! length st = Some ([] : list str)).
    { rewrite lookup_app_l by (rewrite length_app; simpl; lia).
      apply new_list_lookup. }
    assert (Hne : length st <> length (st ++ [[]]))
      by (rewrite length_app; simpl; lia).
    unfold store, ref, str in *.
    split; [congruence|]. rewrite Ha, Hb. split; [reflexivity|].
    split; [reflexivity|]. intros hint. split.
    + rewrite list_lookup_alter, Ha.
      destruct (decide (length st = length st)); [reflexivity | contradiction].
    + rewrite list_lookup_alter_ne by exact Hne. rewrite Hb. reflexivity.
Qed.

(** ** Correct answers and the services *)

(** X9. When the similarity exceeds the threshold, the response and the
    progress depend neither on the question, nor on the vector store, nor on
    the prompt formatter, nor on the chat model: none of them is consulted. *)
Theorem correct_answer_consults_no_service cos_sim format_prompt1 format_prompt2
    self chat2 question1 question2 vector_db1 vector_db2 correct_answer
    user_answer p similarity :
  _calculate_similarity cos_sim self correct_answer user_answer = Ok similarity ->
  (similarity_threshold self <? similarity)%float = true ->
  generate_response cos_sim format_prompt1 self question1 vector_db1
    correct_answer user_answer p
  = generate_response cos_sim format_prompt2
      (mkResponseGenerator chat2 (similarity_threshold self) (embeddings self))
      question2 vector_db2 correct_answer user_answer p.
Proof.
  intros Hs Hgt.
  rewrite (correct_path cos_sim format_prompt1 _ _ _ _ _ _ _ Hs Hgt).
  symmetry. apply (correct_path cos_sim format_prompt2) with similarity.
  - exact Hs.
  - exact Hgt.
Qed.

(** X11. The generic encouragement is the one of every attempt count outside
    0..4, negative counts included, and of no count inside. *)
Theorem generic_encouragement_iff_outside (n : Z) :
  _get_encouragement n = KEEP_PERSEVERING <-> n < 0 \/ 4 < n.
Proof.
  split; [|apply encouragement_default].
  intros H.
  destruct (decide (n = 0)) as [-> | ?]; [discriminate H|].
  destruct (decide (n = 1)) as [-> | ?]; [discriminate H|].
  destruct (decide (n = 2)) as [-> | ?]; [discriminate H|].
  destruct (decide (n = 3)) as [-> | ?]; [discriminate H|].
  destruct (decide (n = 4)) as [-> | ?]; [discriminate H|].
  lia.
Qed.

(** ** DocumentProcessor *)

Ltac step_st :=
  cbv beta iota zeta delta
    [create_vector_db remove_temp_dir emit set_temp_dir st_try_finally
     st_try_except st_bind st_call st_get st_modify st_ret fst snd];
  cbn [temp_dir dp_embeddings].

(** The processor a call leaves when [mkdtemp] has succeeded. *)
Lemma temp_directory_always_removed_aux os file_upload self log c d :
  mkdtemp os = Ok (c :: d) ->
  exists self',
    fst (snd (create_vector_db os file_upload (self, log))) = self' /\
    temp_dir self' = Some (c :: d).
Proof.
  intros Hd. step_st. rewrite Hd.
  destruct (open_wb os _) as [[]|]; [|eexists; split; reflexivity].
  destruct file_upload as [data|]; [|eexists; split; reflexivity].
  destruct (file_write os _ data) as [[]|]; [|eexists; split; reflexivity].
  destruct (pdf_load os _) as [documents|]; [|eexists; split; reflexivity].
  destruct (split_documents os documents) as [chunks|];
    [|eexists; split; reflexivity].
  destruct (chroma_from_documents os chunks _); eexists; split; reflexivity.
Qed.

(** X12. Once [mkdtemp] has made the temporary directory, the call ends by
    removing it, whether it returns the vector store or raises at any step;
    in between it touches nothing but [temp.pdf] in that directory, and it
    leaves the directory's name in [self.temp_dir]. *)
Theorem temp_directory_always_removed os file_upload self log c d :
  mkdtemp os = Ok (c :: d) ->
  exists outcome self' between,
    create_vector_db os file_upload (self, log)
    = (outcome,
       (self', log ++ Mkdtemp (c :: d) :: between ++ [Rmtree (c :: d)])) /\
    temp_dir self' = Some (c :: d) /\
    Forall (fun e =>
              e = OpenWb (path_join os (c :: d) (py "temp.pdf"))
              \/ exists data,
                   e = Write (path_join os (c :: d) (py "temp.pdf")) data)
      between.
Proof.
  intros Hd. step_st. rewrite Hd.
  set (path := path_join os (c :: d) (py "temp.pdf")).
  destruct (open_wb os path) as [[]|].
  2: { step_st. exists Raise, (mkDocumentProcessor (Some (c :: d)) (dp_embeddings self)), [].
       split; [|split; [reflexivity | constructor]].
       rewrite <- !app_assoc. reflexivity. }
  destruct file_upload as [data|].
  2: { step_st. exists Raise, (mkDocumentProcessor (Some (c :: d)) (dp_embeddings self)),
         [OpenWb path].
       split; [|split; [reflexivity | repeat constructor]].
       rewrite <- !app_assoc. reflexivity. }
  assert (Hbetween :
            Forall (fun e => e = OpenWb path \/ exists data0, e = Write path data0)
              [OpenWb path; Write path data]).
  { constructor; [left; reflexivity|].
    constructor; [right; exists data; reflexivity | constructor]. }
  destruct (file_write os path data) as [[]|].
  2: { step_st. exists Raise, (mkDocumentProcessor (Some (c :: d)) (dp_embeddings self)),
         [OpenWb path].
       split; [|split; [reflexivity | repeat constructor]].
       rewrite <- !app_assoc. reflexivity. }
  destruct (pdf_load os path) as [documents|].
  2: { step_st. exists Raise, (mkDocumentProcessor (Some (c :: d)) (dp_embeddings self)),
         [OpenWb path; Write path data].
       split; [|split; [reflexivity | exact Hbetween]].
       rewrite <- !app_assoc. reflexivity. }
  destruct (split_documents os documents) as [chunks|].
  2: { step_st. exists Raise, (mkDocumentProcessor (Some (c :: d)) (dp_embeddings self)),
         [OpenWb path; Write path data].
       split; [|split; [reflexivity | exact Hbetween]].
       rewrite <- !app_assoc. reflexivity. }
  destruct (chroma_from_documents os chunks (dp_embeddings self)) as [db|].
  - step_st. exists (Ok db), (mkDocumentProcessor (Some (c :: d)) (dp_embeddings self)),
      [OpenWb path; Write path data].
    split; [|split; [reflexivity | exact Hbetween]].
    rewrite <- !app_assoc. reflexivity.
  - step_st. exists Raise, (mkDocumentProcessor (Some (c :: d)) (dp_embeddings self)),
      [OpenWb path; Write path data].
    split; [|split; [reflexivity | exact Hbetween]].
    rewrite <- !app_assoc. reflexivity.
Qed.

(** X13. When [mkdtemp] raises, the call raises and [self.temp_dir] keeps
    the value of an earlier call: so a processor that has served one call
    removes the directory of that call again, and a new processor removes
    nothing. *)
Theorem failed_mkdtemp_removes_earlier_directory os1 os2 upload1 upload2 emb c d :
  mkdtemp os1 = Ok (c :: d) ->
  mkdtemp os2 = Raise ->
  create_vector_db os2 upload2 (DocumentProcessor_init emb, [])
  = (Raise, (DocumentProcessor_init emb, [])) /\
  create_vector_db os2 upload2
    (fst (snd (create_vector_db os1 upload1 (DocumentProcessor_init emb, []))), [])
  = (Raise,
     (fst (snd (create_vector_db os1 upload1 (DocumentProcessor_init emb, []))),
      [Rmtree (c :: d)])).
Proof.
  intros H1 H2. split.
  - step_st. rewrite H2. reflexivity.
  - destruct (temp_directory_always_removed_aux os1 upload1
                (DocumentProcessor_init emb) [] c d H1) as (self' & -> & Ht).
    step_st. rewrite H2. destruct self' as [t e]. simpl in Ht. subst t.
    reflexivity.
Qed.

(** X14. The call returns a vector store exactly when every step succeeds,
    and then it is the store [Chroma.from_documents] builds, with the
    embeddings of the processor, from the chunks of the documents loaded
    from [temp.pdf]; the failure of any step makes the call raise. *)
Theorem vector_db_iff_every_step_succeeds os file_upload self log db :
  fst (create_vector_db os file_upload (self, log)) = Ok db
  <-> exists d data documents chunks,
        mkdtemp os = Ok d /\
        open_wb os (path_join os d (py "temp.pdf")) = Ok tt /\
        file_upload = Ok data /\
        file_write os (path_join os d (py "temp.pdf")) data = Ok tt /\
        pdf_load os (path_join os d (py "temp.pdf")) = Ok documents /\
        split_documents os documents = Ok chunks /\
        chroma_from_documents os chunks (dp_embeddings self) = Ok db.
Proof.
  split.
  - step_st.
    destruct (mkdtemp os) as [d|] eqn:Hd.
    2: { destruct (temp_dir self) as [[|? ?]|]; discriminate. }
    destruct (open_wb os (path_join os d (py "temp.pdf"))) as [[]|] eqn:Ho.
    2: { destruct d; discriminate. }
    destruct file_upload as [data|].
    2: { destruct d; discriminate. }
    destruct (file_write os (path_join os d (py "temp.pdf")) data) as [[]|] eqn:Hw.
    2: { destruct d; discriminate. }
    destruct (pdf_load os (path_join os d (py "temp.pdf"))) as [documents|] eqn:Hl.
    2: { destruct d; discriminate. }
    destruct (split_documents os documents) as [chunks|] eqn:Hsp.
    2: { destruct d; discriminate. }
    destruct (chroma_from_documents os chunks (dp_embeddings self)) as [db'|] eqn:Hc.
    2: { destruct d; discriminate. }
    intros H. exists d, data, documents, chunks.
    destruct d; injection H as <-; auto 10.
  - intros (d & data & documents & chunks & Hd & Ho & -> & Hw & Hl & Hsp & Hc).
    step_st. rewrite Hd, Ho, Hw, Hl, Hsp, Hc.
    destruct d; reflexivity.
Qed.

(** ** Concrete runs *)

(** C1 as stated does not hold: with a similarity of 0.5, below the
    threshold, and a chat model that raises, the apology is returned and
    [attempts] has gone from 0 to 1. *)
Lemma apology_turn_counts_as_attempt :
  _calculate_similarity (sample_cos_sim 0.5) failing_generator
    sample_correct_answer sample_user_answer = Ok 0.5%float /\
  (0.5 <=? similarity_threshold failing_generator)%float = true /\
  (forall messages, llm failing_generator messages = Raise) /\
  generate_response (sample_cos_sim 0.5) sample_format_prompt failing_generator
    sample_question sample_vector_db sample_correct_answer sample_user_answer
    fresh_progress
  = (Ok APOLOGY, mkLearningProgress false 1 []) /\
  attempts
    (snd (generate_response (sample_cos_sim 0.5) sample_format_prompt
            failing_generator sample_question sample_vector_db
            sample_correct_answer sample_user_answer fresh_progress))
  <> attempts fresh_progress.
Proof.
  repeat split; try reflexivity.
  vm_compute. discriminate.
Qed.

(** A chat model that is down, on a fresh progress and a similarity of 0.5. *)
Lemma llm_failure_returns_apology_witness :
  exists p',
    generate_response (sample_cos_sim 0.5) sample_format_prompt failing_generator
      sample_question sample_vector_db sample_correct_answer sample_user_answer
      fresh_progress
    = (Ok (py "I encountered an issue generating feedback. Please try again or rephrase your answer."), p') /\
    attempts p' = attempts fresh_progress + 1 /\
    hints_given p' = hints_given fresh_progress /\
    completed p' = completed fresh_progress.
Proof.
  eapply llm_failure_returns_apology; reflexivity.
Defined.

(** A correct answer after two attempts: the message speaks of 3 attempts. *)
Lemma first_correct_answer_congratulates_witness :
  exists message,
    generate_response (sample_cos_sim 0.9) sample_format_prompt failing_generator
      sample_question sample_vector_db sample_correct_answer sample_user_answer
      (mkLearningProgress false 2 [])
    = (Ok message, mkLearningProgress true 2 []) /\
    str_in (py "after 3 attempts") message = true.
Proof.
  destruct (first_correct_answer_congratulates (sample_cos_sim 0.9)
              sample_format_prompt failing_generator sample_question
              sample_vector_db sample_correct_answer sample_user_answer
              (mkLearningProgress false 2 []) 0.9%float
              eq_refl eq_refl eq_refl)
    as (message & Hrun & _ & _ & _ & H3).
  exists message. split; [exact Hrun | exact (H3 eq_refl)].
Defined.

(** A second incorrect answer: the "making progress" line, then the hint
    without the blanks around it. *)
Lemma incorrect_answer_gives_hint_witness :
  exists response p',
    generate_response (sample_cos_sim 0.5) sample_format_prompt
      (sample_generator (py "  Think about what happens near the point. "))
      sample_question sample_vector_db sample_correct_answer sample_user_answer
      (mkLearningProgress false 1 [])
    = (Ok response, p') /\
    attempts p' = 2 /\
    response = py "You're making progress! Keep thinking about it." ++ LF ++ LF
               ++ py "Think about what happens near the point." /\
    str_in (py "Think about what happens near the point.") response = true /\
    startswith (py "You're making progress! Keep thinking about it.") response = true.
Proof.
  exact (incorrect_answer_gives_hint (sample_cos_sim 0.5) sample_format_prompt
           (sample_generator (py "  Think about what happens near the point. "))
           sample_question sample_vector_db sample_correct_answer
           sample_user_answer (mkLearningProgress false 1 []) 0.5%float _ _
           (py "  Think about what happens near the point. ")
           eq_refl eq_refl eq_refl eq_refl eq_refl).
Defined.

(** The invariants on the run of the chat model that is down. *)
Lemma progress_invariants_preserved_witness :
  exists response p',
    generate_response (sample_cos_sim 0.5) sample_format_prompt failing_generator
      sample_question sample_vector_db sample_correct_answer sample_user_answer
      fresh_progress
    = (Ok response, p') /\
    attempts fresh_progress <= attempts p' /\
    (completed fresh_progress = true -> completed p' = true) /\
    (Z.of_nat (length (hints_given fresh_progress)) <= attempts fresh_progress ->
     Z.of_nat (length (hints_given p')) <= attempts p').
Proof.
  exact (progress_invariants_preserved (sample_cos_sim 0.5) sample_format_prompt
           failing_generator sample_question sample_vector_db
           sample_correct_answer sample_user_answer fresh_progress).
Defined.

(** An embedding service that is down: the fallback, and the progress as it
    was. *)
Lemma unexpected_error_returns_fallback_witness :
  generate_response (sample_cos_sim 0.5) sample_format_prompt
    (ResponseGenerator_init failing_chat failing_embeddings)
    sample_question sample_vector_db sample_correct_answer sample_user_answer
    (mkLearningProgress false 3 [py "an earlier hint"])
  = (Ok (py "I encountered an issue processing your answer. Please try again."),
     mkLearningProgress false 3 [py "an earlier hint"]).
Proof.
  exact (proj1 (unexpected_error_returns_fallback (sample_cos_sim 0.5)
                  sample_format_prompt
                  (ResponseGenerator_init failing_chat failing_embeddings)
                  sample_question sample_vector_db sample_correct_answer
                  sample_user_answer
                  (mkLearningProgress false 3 [py "an earlier hint"]))
           _ eq_refl).
Defined.

(** A correct answer on a completed progress. *)
Lemma repeated_correct_answer_is_noop_witness :
  generate_response (sample_cos_sim 0.9) sample_format_prompt failing_generator
    sample_question sample_vector_db sample_correct_answer sample_user_answer
    (mkLearningProgress true 1 [py "an earlier hint"])
  = (Ok (py "."), mkLearningProgress true 1 [py "an earlier hint"]) /\
  str_in (py "Congratulations") (py ".") = false.
Proof.
  eapply repeated_correct_answer_is_noop; reflexivity.
Defined.

(** Two incorrect answers with two different hints, from a fresh progress. *)
Lemma hints_append_only_without_duplicates_witness :
  attempts
    (snd (session (sample_cos_sim 0.5) sample_format_prompt
            [sample_submission (py " Start from the definition. ");
             sample_submission (py "Compare left and right values.")]
            fresh_progress)) = 2 /\
  hints_given
    (snd (session (sample_cos_sim 0.5) sample_format_prompt
            [sample_submission (py " Start from the definition. ");
             sample_submission (py "Compare left and right values.")]
            fresh_progress))
  = [py "Start from the definition."; py "Compare left and right values."].
Proof.
  destruct (proj1 (proj2 (hints_append_only_without_duplicates
                            (sample_cos_sim 0.5) sample_format_prompt))
              [sample_submission (py " Start from the definition. ");
               sample_submission (py "Compare left and right values.")]
              [py "Start from the definition."; py "Compare left and right values."])
    as (Ha & _ & Hh).
  - split; [|split; [|exact I]];
      (do 4 eexists; repeat split; reflexivity).
  - apply (bool_decide_eq_true_1 _). vm_compute. reflexivity.
  - split; [exact Ha | exact Hh].
Defined.

(** The template at two attempts, and its change at the third. *)
Lemma template_selected_in_three_tiers_witness :
  _get_dynamic_prompt_template (mkLearningProgress false 2 [])
  = TEMPLATE_MAKING_PROGRESS /\
  _get_dynamic_prompt_template (mkLearningProgress false 2 [])
  <> _get_dynamic_prompt_template (mkLearningProgress false 3 []).
Proof.
  destruct (template_selected_in_three_tiers (sample_cos_sim 0.5)
              sample_format_prompt)
    as (_ & H12 & _ & _ & _ & Hstep & _).
  split.
  - apply H12. simpl. lia.
  - apply (proj2 (Hstep (mkLearningProgress false 2 []) ltac:(simpl; lia))).
    right. reflexivity.
Defined.

(** The generic line at seven attempts. *)
Lemma encouragement_by_attempt_count_witness :
  _get_encouragement 7 = py "Keep persevering! Here's some guidance:".
Proof.
  apply (proj1 (proj2 (proj2 (proj2 (proj2 (proj2 encouragement_by_attempt_count)))))).
  lia.
Defined.

(** A hint that arrives wrapped in blanks is recorded without them. *)
Lemma recorded_hints_are_stripped_witness :
  (forall c, head (py "Start from the definition.") = Some c -> isspace c = false) /\
  (forall c, list.last (py "Start from the definition.") = Some c -> isspace c = false).
Proof.
  apply (recorded_hints_are_stripped (sample_cos_sim 0.5) sample_format_prompt
           (sample_submission (py "   Start from the definition.  "))
           fresh_progress).
  - apply (bool_decide_eq_true_1 _). vm_compute. reflexivity.
  - apply (bool_decide_eq_false_1 _). vm_compute. reflexivity.
Defined.

(** Three submissions with the same hint on a new progress. *)
Lemma session_keeps_hints_distinct_witness :
  NoDup
    (hints_given
       (snd (session (sample_cos_sim 0.5) sample_format_prompt
               [sample_submission (py "Start from the definition.");
                sample_submission (py " Start from the definition. ");
                sample_submission (py "Start from the definition.")]
               fresh_progress))).
Proof.
  apply session_keeps_hints_distinct.
  apply (bool_decide_eq_true_1 _). vm_compute. reflexivity.
Defined.

(** A correct answer with every other service down or replaced. *)
Lemma correct_answer_consults_no_service_witness :
  generate_response (sample_cos_sim 0.9) sample_format_prompt
    (sample_generator (py "a hint")) sample_question sample_vector_db
    sample_correct_answer sample_user_answer fresh_progress
  = generate_response (sample_cos_sim 0.9) (fun _ _ _ _ _ _ => Raise)
      (mkResponseGenerator failing_chat
         (similarity_threshold (sample_generator (py "a hint")))
         (embeddings (sample_generator (py "a hint"))))
      (py "another question") (fun _ => Raise)
      sample_correct_answer sample_user_answer fresh_progress.
Proof.
  apply (correct_answer_consults_no_service (sample_cos_sim 0.9)
           sample_format_prompt (fun _ _ _ _ _ _ => Raise)
           (sample_generator (py "a hint")) failing_chat sample_question
           (py "another question") sample_vector_db (fun _ => Raise)
           sample_correct_answer sample_user_answer fresh_progress 0.9%float);
    reflexivity.
Defined.

(** A store with a fourth passage and one without it. *)
Lemma context_is_first_three_passages_witness :
  _get_enhanced_context sample_question sample_vector_db
  = Ok (py "passage one" ++ LF ++ py "passage two" ++ LF ++ py "passage three") /\
  generate_response (sample_cos_sim 0.5) sample_format_prompt
    (sample_generator (py "a hint")) sample_question sample_vector_db
    sample_correct_answer sample_user_answer fresh_progress
  = generate_response (sample_cos_sim 0.5) sample_format_prompt
      (sample_generator (py "a hint")) sample_question
      (fun _ => Ok [py "passage one"; py "passage two"; py "passage three"])
      sample_correct_answer sample_user_answer fresh_progress.
Proof.
  destruct (context_is_first_three_passages (sample_cos_sim 0.5)
              sample_format_prompt (sample_generator (py "a hint"))
              sample_question sample_vector_db
              (fun _ => Ok [py "passage one"; py "passage two"; py "passage three"])
              sample_correct_answer sample_user_answer fresh_progress
              _ _ eq_refl eq_refl eq_refl) as (Hctx & _ & Hsame).
  split; [exact Hctx | exact Hsame].
Defined.

(** A call on which every step succeeds: the directory is made, [temp.pdf]
    is written in it, and the directory is removed. *)
Lemma temp_directory_always_removed_witness :
  exists outcome self' between,
    create_vector_db sample_platform (Ok [37; 80; 68; 70]%N)
      (DocumentProcessor_init sample_embeddings, [])
    = (outcome,
       (self',
        [] ++ Mkdtemp (py "/tmp/tmpk3v9") :: between
        ++ [Rmtree (py "/tmp/tmpk3v9")])) /\
    temp_dir self' = Some (py "/tmp/tmpk3v9") /\
    Forall (fun e =>
              e = OpenWb (py "/tmp/tmpk3v9/temp.pdf")
              \/ exists data, e = Write (py "/tmp/tmpk3v9/temp.pdf") data)
      between.
Proof.
  exact (temp_directory_always_removed sample_platform (Ok [37; 80; 68; 70]%N)
           (DocumentProcessor_init sample_embeddings) [] 47%N (py "tmp/tmpk3v9")
           eq_refl).
Defined.

(** A processor that has served one call, on a platform that can make no
    directory. *)
Lemma failed_mkdtemp_removes_earlier_directory_witness :
  create_vector_db full_platform (Ok [])
    (fst (snd (create_vector_db sample_platform (Ok [37; 80; 68; 70]%N)
                 (DocumentProcessor_init sample_embeddings, []))), [])
  = (Raise,
     (fst (snd (create_vector_db sample_platform (Ok [37; 80; 68; 70]%N)
                  (DocumentProcessor_init sample_embeddings, []))),
      [Rmtree (py "/tmp/tmpk3v9")])).
Proof.
  exact (proj2 (failed_mkdtemp_removes_earlier_directory sample_platform
                  full_platform (Ok [37; 80; 68; 70]%N) (Ok [])
                  sample_embeddings 47%N (py "tmp/tmpk3v9") eq_refl eq_refl)).
Defined.

(** The second exercise is selected in a session that holds the store of the
    first. *)
Lemma vector_store_is_never_replaced_witness :
  ss_vector_db
    (fst (snd (setup_student_ui (sample_cos_sim 0.5) sample_format_prompt
                 (sample_inputs 1 (fun _ => Raise) (Some (py "A sum."))
                    (Ok (sample_generator (py "a hint"))))
                 (mkSessionState (Some []) (Some fresh_progress)
                    (Some sample_vector_db), []))))
  = Some sample_vector_db.
Proof.
  exact (proj1 (vector_store_is_never_replaced (sample_cos_sim 0.5)
                  sample_format_prompt
                  (sample_inputs 1 (fun _ => Raise) (Some (py "A sum."))
                     (Ok (sample_generator (py "a hint"))))
                  (mkSessionState (Some []) (Some fresh_progress)
                     (Some sample_vector_db), [])
                  sample_vector_db eq_refl)).
Defined.

(** A first, incorrect answer in a new session. *)
Lemma answer_is_recorded_with_its_response_witness :
  exists response p',
    generate_response (sample_cos_sim 0.5) sample_format_prompt
      (sample_generator (py "a hint")) sample_question sample_vector_db
      sample_correct_answer (py "I do not know.") fresh_progress
    = (Ok response, p') /\
    setup_student_ui (sample_cos_sim 0.5) sample_format_prompt
      (sample_inputs 0 (fun _ => Raise) (Some (py "I do not know."))
         (Ok (sample_generator (py "a hint"))))
      (mkSessionState (Some []) (Some fresh_progress) (Some sample_vector_db), [])
    = (Ok tt,
       (mkSessionState
          (Some ([] ++ [mkMessage (py "user") (py "I do not know.");
                        mkMessage (py "assistant") response]))
          (Some p') (Some sample_vector_db),
        [] ++ (if shows_balloons response then [Balloons] else []) ++ [Rerun])).
Proof.
  exact (answer_is_recorded_with_its_response (sample_cos_sim 0.5)
           sample_format_prompt
           (sample_inputs 0 (fun _ => Raise) (Some (py "I do not know."))
              (Ok (sample_generator (py "a hint"))))
           [] fresh_progress sample_vector_db []
           [sample_exercise; other_exercise] sample_exercise
           73%N (py " do not know.") (sample_generator (py "a hint"))
           eq_refl eq_refl eq_refl eq_refl).
Defined.

(** The first exercise was completed; the second gets a correct answer. *)
Lemma completed_progress_is_shared_by_exercises_witness :
  setup_student_ui (sample_cos_sim 0.9) sample_format_prompt
    (sample_inputs 1 (fun _ => Raise) (Some (py "A sum."))
       (Ok (sample_generator (py "a hint"))))
    (mkSessionState (Some []) (Some (mkLearningProgress true 2 []))
       (Some sample_vector_db), [])
  = (Ok tt,
     (mkSessionState
        (Some ([] ++ [mkMessage (py "user") (py "A sum.");
                      mkMessage (py "assistant") (py ".")]))
        (Some (mkLearningProgress true 2 [])) (Some sample_vector_db),
      [] ++ [Rerun])).
Proof.
  exact (completed_progress_is_shared_by_exercises (sample_cos_sim 0.9)
           sample_format_prompt
           (sample_inputs 1 (fun _ => Raise) (Some (py "A sum."))
              (Ok (sample_generator (py "a hint"))))
           [] (mkLearningProgress true 2 []) sample_vector_db []
           [sample_exercise; other_exercise] other_exercise
           65%N (py " sum.") (sample_generator (py "a hint")) 0.9%float
           eq_refl eq_refl eq_refl eq_refl eq_refl eq_refl eq_refl).
Defined.

(** The reference file of the exercise cannot be opened. *)
Lemma failed_materials_drop_the_answer_witness :
  setup_student_ui (sample_cos_sim 0.5) sample_format_prompt
    (sample_inputs 0 (fun _ => Raise) (Some (py "I do not know."))
       (Ok (sample_generator (py "a hint"))))
    (mkSessionState None None None, [])
  = (Ok tt,
     (mkSessionState (Some []) (Some fresh_progress) None,
      [] ++ [MaterialsError])).
Proof.
  exact (failed_materials_drop_the_answer (sample_cos_sim 0.5)
           sample_format_prompt
           (sample_inputs 0 (fun _ => Raise) (Some (py "I do not know."))
              (Ok (sample_generator (py "a hint"))))
           None None [] [sample_exercise; other_exercise] sample_exercise
           eq_refl eq_refl (or_introl eq_refl)).
Defined.
